(** * Adapter layer of vibe-trader: src/Elijah/alpaca_tools.py

    Shallow embedding of the Alpaca tool functions.  The SDK clients are
    created with [raw_data=True], so every vendor answer is a JSON value.
    Each tool runs in a small monad that threads the trace of vendor calls
    made so far and carries a Python exception (its [str(e)]) as the error
    case; a tool's [try ... except Exception as e] is [guard]. *)

From Stdlib Require Import String Ascii List Bool ZArith QArith Lia.
Import ListNotations.
Open Scope string_scope.
Open Scope list_scope.
Set Warnings "-register-all".

(** ** JSON values as the SDK returns them and Python builds them *)

Inductive value : Type :=
| VNull
| VBool (b : bool)
| VNum (q : Q)
| VStr (s : string)
| VList (l : list value)
| VDict (kvs : list (string * value))
| VNaN.   (* pandas fills a missing cell with NaN *)

(** Python exceptions carry the text that [str(e)] shows. *)
Inductive result (A : Type) : Type :=
| Ok (a : A)
| Exc (msg : string).
Arguments Ok {A} a.
Arguments Exc {A} msg.

Fixpoint assoc {A} (k : string) (kvs : list (string * A)) : option A :=
  match kvs with
  | [] => None
  | (k', v) :: r => if String.eqb k k' then Some v else assoc k r
  end.

Definition type_name (v : value) : string :=
  match v with
  | VNull => "NoneType"
  | VBool _ => "bool"
  | VNum _ | VNaN => "float"
  | VStr _ => "str"
  | VList _ => "list"
  | VDict _ => "dict"
  end.

Definition repr_str (s : string) : string := "'" ++ s ++ "'".

(** A double quote, as [repr] puts it around a string holding a quote. *)
Definition dquote : string := String (Ascii.ascii_of_nat 34) EmptyString.

(** [bool(v)] *)
Definition truthy (v : value) : bool :=
  match v with
  | VNull => false
  | VBool b => b
  | VNum q => negb (Qeq_bool q 0)
  | VStr s => negb (String.eqb s "")
  | VList l => match l with [] => false | _ => true end
  | VDict kvs => match kvs with [] => false | _ => true end
  | VNaN => true
  end.

Definition chars (s : string) : list value :=
  map (fun c => VStr (String c EmptyString)) (list_ascii_of_string s).

(** [v[k]] with a string key *)
Definition getitem (v : value) (k : string) : result value :=
  match v with
  | VDict kvs =>
      match assoc k kvs with Some x => Ok x | None => Exc (repr_str k) end
  | VList _ => Exc "list indices must be integers or slices, not str"
  | VStr _ => Exc "string indices must be integers, not 'str'"
  | _ => Exc (repr_str (type_name v) ++ " object is not subscriptable")
  end.

(** [v[-1]] *)
Definition getlast (v : value) : result value :=
  match v with
  | VList l =>
      match rev l with x :: _ => Ok x | [] => Exc "list index out of range" end
  | VStr s =>
      match rev (chars s) with x :: _ => Ok x | [] => Exc "string index out of range" end
  | VDict _ => Exc "-1"
  | _ => Exc (repr_str (type_name v) ++ " object is not subscriptable")
  end.

Definition is_substring (k s : string) : bool :=
  match String.index 0 k s with Some _ => true | None => false end.

(** [k in v] with a string [k] *)
Definition contains (k : string) (v : value) : result bool :=
  match v with
  | VDict kvs => Ok (match assoc k kvs with Some _ => true | None => false end)
  | VList l =>
      Ok (existsb (fun x => match x with VStr s => String.eqb s k | _ => false end) l)
  | VStr s => Ok (is_substring k s)
  | _ => Exc ("argument of type " ++ repr_str (type_name v) ++ " is not iterable")
  end.

(** [for x in v] *)
Definition py_iter (v : value) : result (list value) :=
  match v with
  | VList l => Ok l
  | VDict kvs => Ok (map (fun kv => VStr (fst kv)) kvs)
  | VStr s => Ok (chars s)
  | _ => Exc (repr_str (type_name v) ++ " object is not iterable")
  end.

(** [v.get(k, d)] *)
Definition dict_get (v : value) (k : string) (d : value) : result value :=
  match v with
  | VDict kvs => Ok (match assoc k kvs with Some x => x | None => d end)
  | _ => Exc (repr_str (type_name v) ++ " object has no attribute 'get'")
  end.

(** [d[k] = v] on a Python dict: an existing key keeps its place. *)
Fixpoint dict_set (kvs : list (string * value)) (k : string) (v : value)
  : list (string * value) :=
  match kvs with
  | [] => [(k, v)]
  | (k', v') :: r =>
      if String.eqb k k' then (k', v) :: r else (k', v') :: dict_set r k v
  end.

(** ** Python string methods on Latin-1 text *)

(** [str.lower] *)
Definition lower_char (c : ascii) : ascii :=
  let n := nat_of_ascii c in
  if (Nat.leb 65 n && Nat.leb n 90)
     || (Nat.leb 192 n && Nat.leb n 222 && negb (Nat.eqb n 215))
  then ascii_of_nat (n + 32)%nat else c.

Definition py_lower (s : string) : string :=
  string_of_list_ascii (map lower_char (list_ascii_of_string s)).

(** [str.isspace] on one character *)
Definition is_space (c : ascii) : bool :=
  let n := nat_of_ascii c in
  (Nat.leb 9 n && Nat.leb n 13) || (Nat.leb 28 n && Nat.leb n 32)
  || Nat.eqb n 133 || Nat.eqb n 160.

Fixpoint drop_space (l : list ascii) : list ascii :=
  match l with
  | c :: r => if is_space c then drop_space r else l
  | [] => []
  end.

(** [str.strip()] *)
Definition py_strip (s : string) : string :=
  string_of_list_ascii
    (rev (drop_space (rev (drop_space (list_ascii_of_string s))))).

Fixpoint split_aux (sep : ascii) (l : list ascii) (cur : list ascii)
  : list string :=
  match l with
  | [] => [string_of_list_ascii (rev cur)]
  | c :: r =>
      if Ascii.eqb c sep then string_of_list_ascii (rev cur) :: split_aux sep r []
      else split_aux sep r (c :: cur)
  end.

(** [s.split(sep)] for a one-character separator *)
Definition py_split (sep : ascii) (s : string) : list string :=
  split_aux sep (list_ascii_of_string s) [].

(** ["/" in symbol] *)
Definition has_slash (s : string) : bool :=
  existsb (Ascii.eqb "/"%char) (list_ascii_of_string s).

(** ** SDK request objects and vendor calls *)

Inductive TimeFrame := Minute | Hour | Day.
Inductive OrderSide := BUY | SELL.
Inductive TimeInForce := DAY | GTC.
Inductive OrderType := MARKET.
Inductive QueryOrderStatus := ALL | OPEN | CLOSED.
Inductive DataFeed := IEX.

Record MarketOrderRequest := {
  mo_symbol : string;
  mo_qty : Q;
  mo_side : OrderSide;
  mo_type : OrderType;
  mo_time_in_force : TimeInForce }.

(** [CryptoBarsRequest] and [StockBarsRequest]; only the stock one has a feed. *)
Record BarsRequest := {
  br_symbol_or_symbols : string;
  br_start : option string;
  br_end : option string;
  br_timeframe : TimeFrame;
  br_limit : Z;
  br_feed : option DataFeed }.

Record NewsRequest := {
  nr_start : string;
  nr_end : string;
  nr_sort : string;
  nr_symbols : string;
  nr_limit : Z }.

(** One call into an SDK client, or the upload of a chart artifact. *)
Inductive vendor_call :=
| CallGetNews (r : NewsRequest)
| CallGetAllCryptoAssets
| CallSubmitOrder (r : MarketOrderRequest)
| CallGetOrders (s : QueryOrderStatus)
| CallCancelOrderById (order_id : string)
| CallGetAllPositions
| CallCloseAllPositions (cancel_orders : bool)
| CallGetAccount
| CallGetCryptoBars (r : BarsRequest)
| CallGetStockBars (r : BarsRequest)
| CallSaveArtifact (purpose : string).

(** Everything outside the module: the vendor backend, which may answer
    or raise and may depend on the calls made before; the environment
    flag; the clock; and the datetime parsing of the standard library and
    of pandas. *)
Record Env := {
  vendor : list vendor_call -> vendor_call -> result value;
  SAVE_CHART_ARTIFACT : bool;
  today_00_00 : string;
  today_23_59 : string;
  yesterday : string;
  yesterday_start : string;
  yesterday_end : string;
  (** [dt.datetime.fromisoformat] *)
  fromisoformat : string -> result string;
  (** [pd.to_datetime(..).dt.tz_convert("UTC").dt.strftime("%Y-%m-%dT%H:%M:%SZ")]
      on one cell *)
  to_utc_iso : value -> result value }.

(** ** The monad: trace of vendor calls, and Python exceptions *)

Definition M (A : Type) : Type :=
  list vendor_call -> result A * list vendor_call.

Definition ret {A} (a : A) : M A := fun h => (Ok a, h).

Definition bind {A B} (m : M A) (k : A -> M B) : M B :=
  fun h => match m h with
           | (Ok a, h') => k a h'
           | (Exc e, h') => (Exc e, h')
           end.

Definition lift {A} (r : result A) : M A := fun h => (r, h).

Notation "x <- m ;; k" := (bind m (fun x => k))
  (at level 61, m at next level, right associativity).

(** [try: body except Exception as e: return {"status": "error", "message": str(e)}] *)
Definition error_dict (msg : string) : value :=
  VDict [("status", VStr "error"); ("message", VStr msg)].

Definition success_dict (payload : list (string * value)) : value :=
  VDict (("status", VStr "success") :: payload).

Definition guard (body : M value) : M value :=
  fun h => match body h with
           | (Ok v, h') => (Ok v, h')
           | (Exc e, h') => (Ok (error_dict e), h')
           end.

Fixpoint mapM {A B} (f : A -> M B) (l : list A) : M (list B) :=
  match l with
  | [] => ret []
  | x :: r => y <- f x ;; ys <- mapM f r ;; ret (y :: ys)
  end.

Fixpoint foldM {A B} (f : A -> B -> M A) (a : A) (l : list B) : M A :=
  match l with
  | [] => ret a
  | x :: r => a' <- f a x ;; foldM f a' r
  end.

(** Dict literal whose values are subscripts [src[k]], left to right. *)
Definition project (fields : list (string * string)) (src : value)
  : M (list (string * value)) :=
  mapM (fun f => x <- lift (getitem src (snd f)) ;; ret (fst f, x)) fields.

Definition order_fields : list (string * string) :=
  [("id", "id"); ("symbol", "symbol"); ("qty", "qty");
   ("order_type", "order_type"); ("side", "side"); ("type", "type");
   ("time_in_force", "time_in_force"); ("status", "status");
   ("position_intent", "position_intent"); ("asset_class", "asset_class");
   ("expired_at", "expires_at")].

Definition position_fields : list (string * string) :=
  [("symbol", "symbol"); ("exchange", "exchange");
   ("asset_class", "asset_class"); ("quantity", "qty");
   ("average_entry_price", "avg_entry_price"); ("side", "side");
   ("market_value", "market_value"); ("cost_basis", "cost_basis");
   ("total_pnl_since_buy_in_cash", "unrealized_pl");
   ("total_pnl_since_buy_in_percentage", "unrealized_plpc");
   ("total_intraday_pnl_in_cash", "unrealized_intraday_pl");
   ("total_intraday_pnl_in_percentage", "unrealized_intraday_plpc");
   ("current_price", "current_price"); ("lastday_price", "lastday_price")].

Definition account_fields : list (string * string) :=
  [("account_number", "account_number"); ("status", "status");
   ("currency", "currency"); ("buying_power", "buying_power");
   ("cash", "cash"); ("equity", "equity");
   ("long_market_value", "long_market_value");
   ("short_market_value", "short_market_value");
   ("portfolio_value", "portfolio_value");
   ("buying_power_available", "effective_buying_power");
   ("non_marginable_buying_power", "non_marginable_buying_power");
   ("options_buying_power", "options_buying_power");
   ("last_equity", "last_equity")].

(** The candlestick record built in both [get_today_candlestick_*_data]. *)
Definition candle_fields : list (string * string) :=
  [("timestamp", "t"); ("open", "o"); ("high", "h"); ("low", "l");
   ("close", "c"); ("bar_volume", "v");
   ("volumn_weighted_average_price", "vw"); ("trade_count", "n")].

(** ** pandas, as [get_historical_prices] uses it

    [pd.DataFrame(records)] is modelled on the input the SDK gives it, a
    list of bar dicts: the columns are the keys in order of first
    appearance and a cell missing from a record is NaN.  Any other input is
    treated as a failing construction. *)

Definition frame : Type := list (list (string * value)).

Fixpoint records_of (l : list value) : option frame :=
  match l with
  | [] => Some []
  | VDict kvs :: r =>
      match records_of r with Some rs => Some (kvs :: rs) | None => None end
  | _ :: _ => None
  end.

Definition DataFrame (v : value) : result frame :=
  match v with
  | VList l =>
      match records_of l with
      | Some rs => Ok rs
      | None => Exc "DataFrame constructor not properly called!"
      end
  | _ => Exc "DataFrame constructor not properly called!"
  end.

Definition has_column (df : frame) (k : string) : bool :=
  existsb (fun row => match assoc k row with Some _ => true | None => false end) df.

Definition cell (row : list (string * value)) (k : string) : value :=
  match assoc k row with Some v => v | None => VNaN end.

Fixpoint join (sep : string) (l : list string) : string :=
  match l with
  | [] => ""
  | [x] => x
  | x :: r => x ++ sep ++ join sep r
  end.

(** ** The tools *)

Section AlpacaTools.

Context (env : Env).

(** Issue one SDK call: it is recorded, and the backend answers or raises. *)
Definition call (c : vendor_call) : M value :=
  fun h => (vendor env h c, h ++ [c]).

(** One chart of an [if SAVE_CHART_ARTIFACT and tool_context is not None]
    block: rendering it and [tool_context.save_artifact], one step that may
    raise.  Rendering (the fields the chart reads, plotly) is taken not to
    raise: only the upload is a vendor call. *)
Definition save_chart (tool_context : bool) (purpose : string) : M unit :=
  if SAVE_CHART_ARTIFACT env && tool_context
  then _ <- call (CallSaveArtifact purpose) ;; ret tt
  else ret tt.

Definition no_news_message (symbol : string) : string :=
  "There is now news found for symbol " ++ symbol
  ++ ". May be it is an invalid symbol " ++ symbol ++ ". Please check again.".

Definition fetch_today_news_for_symbol (symbol : string) : M value :=
  guard (
    news <- call (CallGetNews {| nr_start := today_00_00 env;
                                 nr_end := today_23_59 env;
                                 nr_sort := "desc";
                                 nr_symbols := symbol;
                                 nr_limit := 10 |}) ;;
    news <- lift (getitem news "news") ;;
    if negb (truthy news) then
      ret (error_dict (no_news_message symbol))
    else
      articles <- lift (py_iter news) ;;
      news_summary <- mapM (fun article =>
        headline <- lift (dict_get article "headline" (VStr "")) ;;
        summary <- lift (dict_get article "summary" (VStr "")) ;;
        source <- lift (dict_get article "source" (VStr "")) ;;
        created_at <- lift (dict_get article "created_at" (VStr "")) ;;
        ret (VDict [("headline", headline); ("summary", summary);
                    ("source", source); ("created_at", created_at)])) articles ;;
      match news_summary with
      | [] => ret (VDict [("status", VStr "error");
                          ("news", VStr (no_news_message symbol))])
      | _ => ret (success_dict [("news", VList news_summary)])
      end).

Definition get_supported_crypto_symbols : M value :=
  guard (
    assets <- call CallGetAllCryptoAssets ;;
    assets <- lift (py_iter assets) ;;
    picked <- mapM (fun asset =>
      b <- lift (contains "symbol" asset) ;;
      if b then x <- lift (getitem asset "symbol") ;; ret [x] else ret []) assets ;;
    ret (success_dict [("available_crypto_symbols", VList (concat picked))])).

Definition invalid_side_message : string :=
  "Invalid order side. Use 'buy' or 'sell'.".

Definition _place_market_order (symbol : string) (quantity : Q) (side : string)
    (time_in_force : TimeInForce) : M value :=
  if negb (existsb (String.eqb (py_lower side)) ["buy"; "sell"]) then
    ret (error_dict invalid_side_message)
  else
    guard (
      order <- call (CallSubmitOrder
                       {| mo_symbol := symbol;
                          mo_qty := quantity;
                          mo_side := if String.eqb (py_lower side) "buy"
                                     then BUY else SELL;
                          mo_type := MARKET;
                          mo_time_in_force := time_in_force |}) ;;
      fields <- project order_fields order ;;
      ret (success_dict [("order", VDict fields)])).

Definition place_crypto_market_order (symbol : string) (quantity : Q)
    (side : string) : M value :=
  _place_market_order symbol quantity side GTC.

Definition place_stock_market_order (symbol : string) (quantity : Q)
    (side : string) : M value :=
  _place_market_order symbol quantity side DAY.

Definition list_orders (status : QueryOrderStatus) (key : string) : M value :=
  guard (
    orders <- call (CallGetOrders status) ;;
    orders <- lift (py_iter orders) ;;
    recs <- mapM (fun order => fs <- project order_fields order ;; ret (VDict fs))
              orders ;;
    ret (success_dict [(key, VList recs)])).

Definition get_all_orders : M value := list_orders ALL "orders".
Definition get_open_orders : M value := list_orders OPEN "open_orders".
Definition get_closed_orders : M value := list_orders CLOSED "cancelled_orders".

Definition cancel_order_by_id (order_id : string) : M value :=
  guard (
    _ <- call (CallCancelOrderById order_id) ;;
    ret (success_dict [("cancelled_order", VStr order_id)])).

Definition get_all_open_positions (tool_context : bool) : M value :=
  guard (
    positions <- call CallGetAllPositions ;;
    _ <- save_chart tool_context "open_positions_distribution" ;;
    _ <- save_chart tool_context "open_positions_pnl" ;;
    positions <- lift (py_iter positions) ;;
    recs <- mapM (fun p => fs <- project position_fields p ;; ret (VDict fs))
              positions ;;
    ret (success_dict [("open_positions", VList recs)])).

Definition panic_exit : M value :=
  guard (
    closed_positions <- call (CallCloseAllPositions true) ;;
    ret (success_dict [("closed_positions", closed_positions)])).

Definition close_all_positions : M value :=
  guard (
    closed_positions <- call (CallCloseAllPositions false) ;;
    ret (success_dict [("closed_positions", closed_positions)])).

Definition get_account_information (tool_context : bool) : M value :=
  guard (
    account <- call CallGetAccount ;;
    _ <- save_chart tool_context "account_asset_allocation" ;;
    fs <- project account_fields account ;;
    ret (success_dict [("account", VDict fs)])).

(** The symbol existence check [if symbol not in bars or not bars[symbol]]:
    [None] when it takes the error branch, the bars of [symbol] otherwise. *)
Definition lookup_bars (symbol : string) (bars : value) : M (option value) :=
  present <- lift (contains symbol bars) ;;
  if negb present then ret None
  else
    x <- lift (getitem bars symbol) ;;
    if negb (truthy x) then ret None else ret (Some x).

Definition candlestick_body (symbol : string) (tool_context : bool)
    (purpose : string) (bars : value) : M value :=
  ob <- lookup_bars symbol bars ;;
  match ob with
  | None => ret (error_dict ("No candlestick data found for symbol " ++ symbol ++ "."))
  | Some x =>
      bars <- lift (py_iter x) ;;
      understandable_bars <- mapM (fun bar =>
        fs <- project candle_fields bar ;; ret (VDict fs)) bars ;;
      _ <- save_chart tool_context purpose ;;
      ret (success_dict [("candlestick_data", VList understandable_bars)])
  end.

Definition get_today_candlestick_crypto_data (symbol : string)
    (tool_context : bool) : M value :=
  guard (
    bars <- call (CallGetCryptoBars
                    {| br_symbol_or_symbols := symbol;
                       br_start := Some (today_00_00 env);
                       br_end := Some (today_23_59 env);
                       br_timeframe := Hour;
                       br_limit := 10000;
                       br_feed := None |}) ;;
    candlestick_body symbol tool_context "today_candlestick" bars).

Definition get_today_candlestick_stock_data (symbol : string)
    (tool_context : bool) : M value :=
  guard (
    bars <- call (CallGetStockBars
                    {| br_symbol_or_symbols := symbol;
                       br_start := Some (today_00_00 env);
                       br_end := Some (today_23_59 env);
                       br_timeframe := Hour;
                       br_limit := 10000;
                       br_feed := Some IEX |}) ;;
    candlestick_body symbol tool_context "candlestick" bars).

Definition price_result (symbol : string) (last_bar : value) : M value :=
  c <- lift (getitem last_bar "c") ;;
  t <- lift (getitem last_bar "t") ;;
  ret (success_dict [("symbol", VStr symbol); ("price", c); ("timestamp", t)]).

Definition no_price_message (symbol : string) : string :=
  "No price data found for " ++ symbol ++ ".".

Definition get_current_price (symbol : string) : M value :=
  guard (
    if has_slash symbol then
      bars <- call (CallGetCryptoBars
                      {| br_symbol_or_symbols := symbol; br_start := None;
                         br_end := None; br_timeframe := Minute; br_limit := 1;
                         br_feed := None |}) ;;
      ob <- lookup_bars symbol bars ;;
      match ob with
      | None => ret (error_dict (no_price_message symbol))
      | Some x => last_bar <- lift (getlast x) ;; price_result symbol last_bar
      end
    else
      bars <- call (CallGetStockBars
                      {| br_symbol_or_symbols := symbol; br_start := None;
                         br_end := None; br_timeframe := Minute; br_limit := 1;
                         br_feed := Some IEX |}) ;;
      ob <- lookup_bars symbol bars ;;
      match ob with
      | None => ret (error_dict (no_price_message symbol))
      | Some x => last_bar <- lift (getlast x) ;; price_result symbol last_bar
      end).

Definition tf_map : list (string * TimeFrame) :=
  [("minute", Minute); ("hour", Hour); ("day", Day)].

Definition hist_columns : list string := ["t"; "o"; "h"; "l"; "c"; "v"; "n"].

Definition hist_record (row : list (string * value)) (t : value) : value :=
  VDict [("timestamp", t); ("open", cell row "o"); ("high", cell row "h");
         ("low", cell row "l"); ("close", cell row "c");
         ("volume", cell row "v"); ("trade_count", cell row "n")].

Definition no_history_message (symbol : string) : string :=
  "No historical data found for " ++ symbol ++ ".".

(** One iteration of the [for symbol in symbol_list] loop: the entry it
    stores in [results[symbol]]. *)
Definition historical_entry (start_dt end_dt : string) (tf : TimeFrame)
    (symbol : string) : M value :=
  bars <- (if has_slash symbol then
             call (CallGetCryptoBars
                     {| br_symbol_or_symbols := symbol; br_start := Some start_dt;
                        br_end := Some end_dt; br_timeframe := tf;
                        br_limit := 10000; br_feed := None |})
           else
             call (CallGetStockBars
                     {| br_symbol_or_symbols := symbol; br_start := Some start_dt;
                        br_end := Some end_dt; br_timeframe := tf;
                        br_limit := 10000; br_feed := Some IEX |})) ;;
  ob <- lookup_bars symbol bars ;;
  match ob with
  | None => ret (error_dict (no_history_message symbol))
  | Some x =>
      df <- lift (DataFrame x) ;;
      if negb (has_column df "t") then lift (Exc (repr_str "t")) else
      ts <- mapM (fun row => lift (to_utc_iso env (cell row "t"))) df ;;
      match filter (fun k => negb (has_column df k)) hist_columns with
      | (_ :: _) as missing =>
          lift (Exc (dquote ++ "[" ++ join ", " (map repr_str missing)
                     ++ "] not in index" ++ dquote))
      | [] =>
          ret (success_dict
                 [("symbol", VStr symbol);
                  ("historical_data",
                    VList (map (fun p => hist_record (fst p) (snd p)) (combine df ts)))])
      end
  end.

Definition symbol_list_of (symbols : string) : list string :=
  filter (fun s => negb (String.eqb s ""))
         (map py_strip (py_split ","%char symbols)).

Definition get_historical_prices (symbols start end_ interval : string)
    (tool_context : bool) : M value :=
  guard (
    let tf := match assoc (py_lower interval) tf_map with
              | Some t => t | None => Day end in
    start_dt <- lift (fromisoformat env start) ;;
    end_dt <- lift (fromisoformat env end_) ;;
    results <- foldM (fun results symbol =>
                 entry <- historical_entry start_dt end_dt tf symbol ;;
                 ret (dict_set results symbol entry))
               [] (symbol_list_of symbols) ;;
    ret (VDict results)).

(** [x == "success"] *)
Definition is_success (v : value) : bool :=
  match v with VStr s => String.eqb s "success" | _ => false end.

(** [symbol in result and result[symbol]["status"] == "success"] *)
Definition entry_succeeded (symbol : string) (result : value) : M bool :=
  present <- lift (contains symbol result) ;;
  if present then
    e <- lift (getitem result symbol) ;;
    st <- lift (getitem e "status") ;;
    ret (is_success st)
  else ret false.

Definition get_yesterdays_price_action (symbol : string) : M value :=
  guard (
    result <- get_historical_prices symbol (yesterday_start env)
                (yesterday_end env) "day" false ;;
    ok <- entry_succeeded symbol result ;;
    if ok then
      e <- lift (getitem result symbol) ;;
      hd <- lift (getitem e "historical_data") ;;
      ret (success_dict [("symbol", VStr symbol); ("yesterdays_price_action", hd)])
    else
      ret (error_dict ("No price action found for " ++ symbol ++ " on "
                       ++ yesterday env ++ "."))).

Definition plot_price_action (symbol start end_ interval : string)
    (tool_context : bool) : M value :=
  guard (
    result <- get_historical_prices symbol start end_ interval tool_context ;;
    ok <- entry_succeeded symbol result ;;
    if negb ok then ret (error_dict (no_history_message symbol))
    else
      e <- lift (getitem result symbol) ;;
      data <- lift (getitem e "historical_data") ;;
      if negb (truthy data) then
        ret (error_dict ("No data to plot for " ++ symbol ++ "."))
      else if SAVE_CHART_ARTIFACT env && tool_context then
        let filename := ("price_action_" ++ symbol ++ "_" ++ substring 0 10 start
                        ++ "_" ++ substring 0 10 end_ ++ ".png")%string in
        _ <- call (CallSaveArtifact "price_action") ;;
        ret (success_dict [("message", VStr ("Chart saved as " ++ filename ++ "."))])
      else
        ret (success_dict
               [("message", VStr "Chart plotting is disabled or no tool context provided.")])).

End AlpacaTools.

(** ** A mocked backend, for concrete runs *)

Definition mock_env (answer : vendor_call -> result value) : Env :=
  {| vendor := fun _ c => answer c;
     SAVE_CHART_ARTIFACT := false;
     today_00_00 := "2025-06-30T00:00:00+00:00";
     today_23_59 := "2025-06-30T23:59:59.999999+00:00";
     yesterday := "2025-06-29";
     yesterday_start := "2025-06-29T00:00:00";
     yesterday_end := "2025-06-29T23:59:59";
     fromisoformat := fun s => Ok s;
     to_utc_iso := fun v => Ok v |}.

Definition aapl_bar : value :=
  VDict [("c", VNum (401 # 2)); ("t", VStr "2025-06-30T14:00:00Z")].

Definition aapl_response : value := VDict [("AAPL", VList [aapl_bar])].

Definition full_bar : value :=
  VDict [("c", VNum (40150 # 200)); ("h", VNum (20217 # 100));
         ("l", VNum (20057 # 100)); ("n", VNum 1628);
         ("o", VNum (20202 # 100)); ("t", VStr "2025-06-30T13:00:00Z");
         ("v", VNum 124276); ("vw", VNum (201097233 # 1000000))].

(** ** Shapes of results *)

(** A status-tagged result: [{"status": "error", "message": m}] or a dict
    whose first key is ["status": "success"]. *)
Definition tagged (v : value) : Prop :=
  (exists m, v = error_dict m) \/ (exists p, v = success_dict p).

(** A tool that never raises and always returns a tagged result. *)
Definition tagged_tool (m : M value) : Prop :=
  forall h, exists v h', m h = (Ok v, h') /\ tagged v.

(** ** Partial correctness in the monad *)

Definition post {A} (P : A -> Prop) (m : M A) : Prop :=
  forall h, match fst (m h) with Ok a => P a | Exc _ => True end.

Lemma post_ret {A} (P : A -> Prop) (a : A) : P a -> post P (ret a).
Proof. intros Ha h. exact Ha. Qed.

Lemma post_true {A} (m : M A) : post (fun _ => True) m.
Proof. intros h. destruct (fst (m h)); exact I. Qed.

Lemma post_bind {A B} (Q : A -> Prop) (P : B -> Prop) (m : M A) (k : A -> M B) :
  post Q m -> (forall a, Q a -> post P (k a)) -> post P (bind m k).
Proof.
  intros Hm Hk h. unfold bind. specialize (Hm h).
  destruct (m h) as [[a|e] h']; simpl in *; [exact (Hk a Hm h') | exact I].
Qed.

Lemma post_lift_exc {A} (P : A -> Prop) (e : string) : post P (lift (Exc e)).
Proof. intros h. exact I. Qed.

Lemma post_foldM {A B} (I : A -> Prop) (f : A -> B -> M A) (l : list B) :
  (forall a b, I a -> post I (f a b)) -> forall a, I a -> post I (foldM f a l).
Proof.
  intros Hf. induction l as [|b l IH]; intros a Ha; simpl.
  - apply post_ret, Ha.
  - eapply post_bind; [apply Hf, Ha | exact IH].
Qed.

Lemma guard_tagged (body : M value) : post tagged body -> tagged_tool (guard body).
Proof.
  intros Hb h. unfold guard. specialize (Hb h).
  destruct (body h) as [[v|e] h']; simpl in *.
  - exists v, h'. split; [reflexivity | exact Hb].
  - exists (error_dict e), h'. split; [reflexivity | left; exists e; reflexivity].
Qed.

Lemma tagged_error m : tagged (error_dict m).
Proof. left. exists m. reflexivity. Qed.

Lemma tagged_success p : tagged (success_dict p).
Proof. right. exists p. reflexivity. Qed.

Create HintDb tools.
#[export] Hint Resolve tagged_error tagged_success post_lift_exc : tools.

(** Walk a monadic body: every intermediate value is unconstrained, every
    branch is split, and the final [ret] is left to [eauto with tools]. *)
Ltac walk :=
  repeat match goal with
  | |- post _ (bind _ _) =>
      eapply post_bind; [apply post_true | intros ? _]
  | |- post _ (ret _) => apply post_ret
  | |- post _ (lift (Exc _)) => apply post_lift_exc
  | |- post _ (if ?b then _ else _) => destruct b
  | |- post _ (match ?x with _ => _ end) => destruct x
  end; eauto with tools.

Lemma post_lift {A} (r : result A) : post (fun a => r = Ok a) (lift r).
Proof. intros h. unfold lift; simpl. destruct r; reflexivity || exact I. Qed.

Lemma post_mapM_length {A B} (f : A -> M B) (l : list A) :
  post (fun ys => length ys = length l) (mapM f l).
Proof.
  induction l as [|x l IH]; simpl.
  - apply post_ret. reflexivity.
  - eapply post_bind; [apply post_true | intros y _].
    eapply post_bind; [exact IH | intros ys Hys].
    apply post_ret. simpl. f_equal. exact Hys.
Qed.

Lemma guard_post (P : value -> Prop) (body : M value) :
  post P body -> (forall m, P (error_dict m)) ->
  forall h, exists v h', guard body h = (Ok v, h') /\ P v.
Proof.
  intros Hb He h. unfold guard. specialize (Hb h).
  destruct (body h) as [[v|e] h']; simpl in *; eexists _, h'; split; eauto.
Qed.

(** Iterating a truthy value yields at least one element. *)
Lemma py_iter_truthy v l : truthy v = true -> py_iter v = Ok l -> l <> [].
Proof.
  intros Ht Hi.
  destruct v as [| | |s|xs|kvs|]; simpl in *; try discriminate;
    injection Hi as <-.
  - unfold chars. destruct s; simpl in *; discriminate.
  - destruct xs; discriminate.
  - destruct kvs; discriminate.
Qed.

(** The result shapes of [fetch_today_news_for_symbol]: the branch that
    stores its message under ["news"] is never taken. *)
Definition news_shape (v : value) : Prop :=
  (exists m, v = error_dict m) \/ (exists l, v = success_dict [("news", VList l)]).

Lemma fetch_today_news_for_symbol_shape env symbol h :
  exists v h', fetch_today_news_for_symbol env symbol h = (Ok v, h') /\ news_shape v.
Proof.
  apply guard_post; [| intros m; left; exists m; reflexivity].
  eapply post_bind; [apply post_true | intros resp _].
  eapply post_bind; [apply post_true | intros news _].
  destruct (truthy news) eqn:Ht; simpl.
  - eapply post_bind; [apply post_lift | intros articles Ha].
    eapply post_bind; [apply post_mapM_length | intros summary Hs].
    destruct summary as [|x r].
    + exfalso. apply (py_iter_truthy news articles Ht Ha).
      destruct articles; [reflexivity | discriminate].
    + apply post_ret. right. eexists. reflexivity.
  - apply post_ret. left. eexists. reflexivity.
Qed.

Ltac tool := apply guard_tagged; walk.

Lemma place_market_order_tagged env symbol quantity side tif :
  tagged_tool (_place_market_order env symbol quantity side tif).
Proof.
  unfold _place_market_order.
  destruct (negb _).
  - intros h. exists (error_dict invalid_side_message), h.
    split; [reflexivity | apply tagged_error].
  - tool.
Qed.

Lemma list_orders_tagged env status key : tagged_tool (list_orders env status key).
Proof. unfold list_orders. tool. Qed.

(** * Claims *)

(** ** Order placement *)

(** Computations that make no vendor call leave the trace alone. *)
Definition no_call {A} (m : M A) : Prop := forall h, snd (m h) = h.

Lemma no_call_ret {A} (a : A) : no_call (ret a).
Proof. intros h. reflexivity. Qed.

Lemma no_call_lift {A} (r : result A) : no_call (lift r).
Proof. intros h. reflexivity. Qed.

Lemma no_call_bind {A B} (m : M A) (k : A -> M B) :
  no_call m -> (forall a, no_call (k a)) -> no_call (bind m k).
Proof.
  intros Hm Hk h. unfold bind. specialize (Hm h).
  destruct (m h) as [[a|e] h']; simpl in *; [rewrite Hk|]; exact Hm.
Qed.

Lemma no_call_mapM {A B} (f : A -> M B) (l : list A) :
  (forall x, no_call (f x)) -> no_call (mapM f l).
Proof.
  intros Hf. induction l as [|x r IH]; simpl.
  - apply no_call_ret.
  - apply no_call_bind; [apply Hf | intros y].
    apply no_call_bind; [exact IH | intros ys]. apply no_call_ret.
Qed.

Lemma project_trace fields src h : snd (project fields src h) = h.
Proof.
  revert h. apply no_call_mapM. intros f.
  apply no_call_bind; [apply no_call_lift | intros x; apply no_call_ret].
Qed.

Lemma guard_trace body h : snd (guard body h) = snd (body h).
Proof. unfold guard. destruct (body h) as [[v|e] h']; reflexivity. Qed.

Definition side_request (side : string) (sd : OrderSide) : Prop :=
  (py_lower side = "buy" /\ sd = BUY) \/ (py_lower side = "sell" /\ sd = SELL).

(** A valid side: exactly one submission, carrying the side it names. *)
Lemma place_market_order_submits env symbol quantity side sd tif h :
  side_request side sd ->
  snd (_place_market_order env symbol quantity side tif h)
  = h ++ [CallSubmitOrder {| mo_symbol := symbol; mo_qty := quantity;
                             mo_side := sd; mo_type := MARKET;
                             mo_time_in_force := tif |}].
Proof.
  intros Hs. unfold _place_market_order.
  destruct Hs as [[Hl ->]|[Hl ->]]; rewrite Hl; simpl;
  rewrite guard_trace; unfold bind at 1, call; simpl;
  destruct (vendor env h _) as [order|e]; simpl; try reflexivity;
  unfold bind;
  match goal with |- context [project order_fields order ?h0] =>
    pose proof (project_trace order_fields order h0) as T;
    destruct (project order_fields order h0) as [[fs|e] h'];
    simpl in *; exact T
  end.
Qed.

(** An invalid side: the fixed error dict, and no call at all. *)
Lemma place_market_order_invalid env symbol quantity side tif h :
  py_lower side <> "buy" -> py_lower side <> "sell" ->
  _place_market_order env symbol quantity side tif h
  = (Ok (error_dict invalid_side_message), h).
Proof.
  intros Hb Hs. unfold _place_market_order.
  apply String.eqb_neq in Hb, Hs. simpl. rewrite Hb, Hs. reflexivity.
Qed.

(** C2: when [side.lower()] is ["buy"] the submitted order request has the
    buy side, through [_place_market_order] and both public wrappers; when
    it is neither ["buy"] nor ["sell"] the result is exactly the fixed
    error dict and the trace of vendor calls is unchanged. *)
Theorem C2_side_handling (env : Env) symbol quantity side h :
  (py_lower side = "buy" ->
     (forall tif, snd (_place_market_order env symbol quantity side tif h)
        = h ++ [CallSubmitOrder {| mo_symbol := symbol; mo_qty := quantity;
                                   mo_side := BUY; mo_type := MARKET;
                                   mo_time_in_force := tif |}])
     /\ snd (place_stock_market_order env symbol quantity side h)
        = h ++ [CallSubmitOrder {| mo_symbol := symbol; mo_qty := quantity;
                                   mo_side := BUY; mo_type := MARKET;
                                   mo_time_in_force := DAY |}]
     /\ snd (place_crypto_market_order env symbol quantity side h)
        = h ++ [CallSubmitOrder {| mo_symbol := symbol; mo_qty := quantity;
                                   mo_side := BUY; mo_type := MARKET;
                                   mo_time_in_force := GTC |}])
  /\ (py_lower side <> "buy" -> py_lower side <> "sell" ->
     let invalid := VDict [("status", VStr "error");
                           ("message", VStr "Invalid order side. Use 'buy' or 'sell'.")] in
     (forall tif, _place_market_order env symbol quantity side tif h = (Ok invalid, h))
     /\ place_stock_market_order env symbol quantity side h = (Ok invalid, h)
     /\ place_crypto_market_order env symbol quantity side h = (Ok invalid, h)).
Proof.
  split.
  - intros Hb. assert (Hs : side_request side BUY) by (left; split; auto).
    split; [|split]; [intros tif| |]; apply place_market_order_submits; exact Hs.
  - intros Hb Hs. split; [|split]; [intros tif| |];
      apply place_market_order_invalid; assumption.
Qed.

Lemma C2_side_handling_witness :
  snd (place_stock_market_order (mock_env (fun _ => Ok VNull)) "AAPL" 1 "BUY" [])
    = [CallSubmitOrder {| mo_symbol := "AAPL"; mo_qty := 1; mo_side := BUY;
                          mo_type := MARKET; mo_time_in_force := DAY |}]
  /\ place_stock_market_order (mock_env (fun _ => Ok VNull)) "AAPL" 1 "hold" []
     = (Ok (VDict [("status", VStr "error");
                   ("message", VStr "Invalid order side. Use 'buy' or 'sell'.")]), []).
Proof.
  split.
  - exact (proj1 (proj2 (proj1 (C2_side_handling (mock_env (fun _ => Ok VNull))
                                  "AAPL" 1 "BUY" []) eq_refl))).
  - exact (proj1 (proj2 (proj2 (C2_side_handling (mock_env (fun _ => Ok VNull))
                                  "AAPL" 1 "hold" [])
                           ltac:(discriminate) ltac:(discriminate)))).
Defined.

(** C5: [place_stock_market_order] and [place_crypto_market_order] are
    [_place_market_order] with time-in-force DAY and GTC, symbol, quantity
    and side passed unchanged; for a valid side the single submitted
    request carries that time-in-force. *)
Theorem C5_time_in_force (env : Env) symbol quantity side sd h :
  place_stock_market_order env symbol quantity side h
    = _place_market_order env symbol quantity side DAY h
  /\ place_crypto_market_order env symbol quantity side h
    = _place_market_order env symbol quantity side GTC h
  /\ (side_request side sd ->
      snd (place_stock_market_order env symbol quantity side h)
        = h ++ [CallSubmitOrder {| mo_symbol := symbol; mo_qty := quantity;
                                   mo_side := sd; mo_type := MARKET;
                                   mo_time_in_force := DAY |}]
      /\ snd (place_crypto_market_order env symbol quantity side h)
        = h ++ [CallSubmitOrder {| mo_symbol := symbol; mo_qty := quantity;
                                   mo_side := sd; mo_type := MARKET;
                                   mo_time_in_force := GTC |}]).
Proof.
  split; [reflexivity | split; [reflexivity|]].
  intros Hs. split; apply place_market_order_submits; exact Hs.
Qed.

Lemma C5_time_in_force_witness :
  snd (place_crypto_market_order (mock_env (fun _ => Ok VNull)) "BTC/USD" (1 # 2) "Sell" [])
    = [CallSubmitOrder {| mo_symbol := "BTC/USD"; mo_qty := 1 # 2; mo_side := SELL;
                          mo_type := MARKET; mo_time_in_force := GTC |}].
Proof.
  exact (proj2 (proj2 (proj2 (C5_time_in_force (mock_env (fun _ => Ok VNull))
                                "BTC/USD" (1 # 2) "Sell" SELL []))
                  ltac:(right; split; reflexivity))).
Defined.

(** ** Traces only grow *)

Definition extends {A} (m : M A) : Prop := forall h, exists r, snd (m h) = h ++ r.

Lemma extends_ret {A} (a : A) : extends (ret a).
Proof. intros h. exists []. symmetry. apply app_nil_r. Qed.

Lemma extends_lift {A} (r : result A) : extends (lift r).
Proof. intros h. exists []. symmetry. apply app_nil_r. Qed.

Lemma extends_call env c : extends (call env c).
Proof. intros h. exists [c]. reflexivity. Qed.

Lemma extends_bind {A B} (m : M A) (k : A -> M B) :
  extends m -> (forall a, extends (k a)) -> extends (bind m k).
Proof.
  intros Hm Hk h. unfold bind. destruct (Hm h) as [r Hr].
  destruct (m h) as [[a|e] h']; simpl in *; subst h'.
  - destruct (Hk a (h ++ r)) as [r' Hr']. exists (r ++ r'). rewrite app_assoc. exact Hr'.
  - exists r. reflexivity.
Qed.

Lemma extends_mapM {A B} (f : A -> M B) (l : list A) :
  (forall x, extends (f x)) -> extends (mapM f l).
Proof.
  intros Hf. induction l as [|x r IH]; simpl.
  - apply extends_ret.
  - apply extends_bind; [apply Hf | intros y].
    apply extends_bind; [exact IH | intros ys]. apply extends_ret.
Qed.

Lemma extends_guard (body : M value) : extends body -> extends (guard body).
Proof.
  intros Hb h. destruct (Hb h) as [r Hr]. exists r. rewrite guard_trace. exact Hr.
Qed.

#[export] Hint Resolve extends_ret extends_lift extends_call : tools.

Ltac grows :=
  repeat match goal with
  | |- extends (guard _) => apply extends_guard
  | |- extends (bind _ _) => apply extends_bind; [|intros ?]
  | |- extends (mapM _ _) => apply extends_mapM; intros ?
  | |- extends (if ?b then _ else _) => destruct b
  | |- extends (match ?x with _ => _ end) => destruct x
  | |- extends (save_chart _ _ _) => unfold save_chart
  | |- extends (project _ _) => unfold project
  | |- extends (lookup_bars _ _) => unfold lookup_bars
  | |- extends (price_result _ _) => unfold price_result
  | |- extends (candlestick_body _ _ _ _ _) => unfold candlestick_body
  end; eauto with tools.

(** The first vendor call [m] makes from history [h] is answered with [resp]. *)
Definition answers (env : Env) (m : M value) (h : list vendor_call) (resp : value)
  : Prop :=
  exists c rest, snd (m h) = h ++ c :: rest /\ vendor env h c = Ok resp.

Lemma first_call env c (k : value -> M value) h :
  (forall a, extends (k a)) -> exists rest, snd (bind (call env c) k h) = h ++ c :: rest.
Proof.
  intros Hk. unfold bind, call. destruct (vendor env h c) as [a|e]; simpl.
  - destruct (Hk a (h ++ [c])) as [r Hr]. exists r. rewrite Hr, <- app_assoc. reflexivity.
  - exists []. reflexivity.
Qed.

(** Reading [answers] off a body that starts with a call. *)
Lemma answers_call env c (k : value -> M value) h resp :
  (forall a, extends (k a)) ->
  answers env (bind (call env c) k) h resp -> vendor env h c = Ok resp.
Proof.
  intros Hk (c' & rest & E & A).
  destruct (first_call env c k h Hk) as [rest' E'].
  rewrite E' in E. apply app_inv_head in E. injection E as -> _. exact A.
Qed.

Lemma answers_guard env body h resp :
  answers env (guard body) h resp -> answers env body h resp.
Proof. intros (c & rest & E & A). exists c, rest. rewrite guard_trace in E. auto. Qed.

(** ** Current price and cancellation *)

Lemma rev_last_value pre (x : value) : rev (pre ++ [x]) = x :: rev pre.
Proof. apply rev_unit. Qed.

Lemma lookup_bars_found symbol kvs x h :
  assoc symbol kvs = Some x -> truthy x = true ->
  lookup_bars symbol (VDict kvs) h = (Ok (Some x), h).
Proof.
  intros Hk Ht. unfold lookup_bars, bind, lift, contains, getitem.
  rewrite Hk. simpl. rewrite Ht. reflexivity.
Qed.

(** C8: when the price call is answered with a dict whose entry for the
    symbol is a non-empty list of bars, the result carries the close price
    ["c"] and timestamp ["t"] of the last bar. *)
Theorem C8_current_price (env : Env) symbol h kvs pre fs c t :
  answers env (get_current_price env symbol) h (VDict kvs) ->
  assoc symbol kvs = Some (VList (pre ++ [VDict fs])) ->
  assoc "c" fs = Some c -> assoc "t" fs = Some t ->
  fst (get_current_price env symbol h)
  = Ok (VDict [("status", VStr "success"); ("symbol", VStr symbol);
               ("price", c); ("timestamp", t)]).
Proof.
  intros HA Hk Hc Ht. apply answers_guard in HA.
  unfold get_current_price in *. unfold guard.
  assert (Htr : truthy (VList (pre ++ [VDict fs])) = true) by (destruct pre; reflexivity).
  destruct (has_slash symbol);
    (apply answers_call in HA; [|intros; grows]);
    unfold bind at 1; unfold call at 1; simpl; rewrite HA;
    unfold bind at 1; rewrite (lookup_bars_found symbol kvs _ _ Hk Htr);
    unfold bind, lift, getlast, price_result; rewrite rev_last_value;
    simpl; rewrite Hc, Ht; reflexivity.
Qed.

Definition mock_aapl : Env := mock_env (fun _ => Ok aapl_response).

Lemma C8_current_price_witness :
  fst (get_current_price mock_aapl "AAPL" [])
  = Ok (VDict [("status", VStr "success"); ("symbol", VStr "AAPL");
               ("price", VNum (401 # 2));
               ("timestamp", VStr "2025-06-30T14:00:00Z")]).
Proof.
  apply (C8_current_price mock_aapl "AAPL" []
           [("AAPL", VList [aapl_bar])] []
           [("c", VNum (401 # 2)); ("t", VStr "2025-06-30T14:00:00Z")]).
  - eexists _, []. split; reflexivity.
  - reflexivity.
  - reflexivity.
  - reflexivity.
Defined.

(** C9: [cancel_order_by_id] makes the one cancel call; if it raises, the
    result is the error dict with [str(e)] unaltered, and otherwise the
    success dict echoing the order id. *)
Theorem C9_cancel_order_by_id (env : Env) order_id h :
  cancel_order_by_id env order_id h
  = (match vendor env h (CallCancelOrderById order_id) with
     | Exc m => Ok (VDict [("status", VStr "error"); ("message", VStr m)])
     | Ok _ => Ok (VDict [("status", VStr "success");
                          ("cancelled_order", VStr order_id)])
     end,
     h ++ [CallCancelOrderById order_id]).
Proof.
  unfold cancel_order_by_id, guard, bind, call. simpl.
  destruct (vendor env h (CallCancelOrderById order_id)); reflexivity.
Qed.

(** ** Empty bar responses *)

Lemma bind_step {A B} (m : M A) (k : A -> M B) h a h' :
  m h = (Ok a, h') -> bind m k h = k a h'.
Proof. intros E. unfold bind. rewrite E. reflexivity. Qed.

Lemma call_ok env c h a :
  vendor env h c = Ok a -> call env c h = (Ok a, h ++ [c]).
Proof. intros E. unfold call. rewrite E. reflexivity. Qed.

(** The vendor dict has no bars for [symbol]: key absent or falsy value
    (an empty list among others). *)
Definition no_bars (symbol : string) (kvs : list (string * value)) : Prop :=
  assoc symbol kvs = None \/ exists x, assoc symbol kvs = Some x /\ truthy x = false.

Lemma lookup_bars_none symbol kvs h :
  no_bars symbol kvs -> lookup_bars symbol (VDict kvs) h = (Ok None, h).
Proof.
  intros [Hk|(x & Hk & Ht)]; unfold lookup_bars, bind, lift, contains, getitem;
    rewrite Hk; simpl; [reflexivity|]. rewrite Ht. reflexivity.
Qed.

Lemma post_lookup_bars symbol bars :
  post (fun ob => forall x, ob = Some x -> truthy x = true) (lookup_bars symbol bars).
Proof.
  unfold lookup_bars.
  eapply post_bind; [apply post_true | intros present _].
  destruct (negb present); [apply post_ret; discriminate|].
  eapply post_bind; [apply post_true | intros x _].
  destruct (truthy x) eqn:Ht; simpl; apply post_ret; [|discriminate].
  intros y Hy. injection Hy as <-. exact Ht.
Qed.

Lemma dict_set_Forall (P : value -> Prop) results k v :
  Forall (fun kv => P (snd kv)) results -> P v ->
  Forall (fun kv => P (snd kv)) (dict_set results k v).
Proof.
  intros Hr Hv. induction Hr as [|[k' v'] r Hkv Hr IH]; simpl.
  - constructor; [exact Hv | constructor].
  - destruct (String.eqb k k'); constructor; auto.
Qed.

Lemma records_of_length l df : records_of l = Some df -> length df = length l.
Proof.
  revert df. induction l as [|x l IH]; intros df H; simpl in H.
  - injection H as <-. reflexivity.
  - destruct x; try discriminate.
    destruct (records_of l) eqn:E; [|discriminate].
    injection H as <-. simpl. f_equal. apply IH. reflexivity.
Qed.

Lemma DataFrame_nonempty x df : truthy x = true -> DataFrame x = Ok df -> df <> [].
Proof.
  intros Ht Hd. destruct x as [| | | |l| |]; simpl in *; try discriminate.
  destruct (records_of l) as [rs|] eqn:E; [|discriminate]. injection Hd as <-.
  apply records_of_length in E. destruct l; [discriminate|].
  destruct rs; [discriminate | discriminate].
Qed.

(** What the success branch of a bar operation never holds. *)
Definition nonempty_payload (key : string) (v : value) : Prop :=
  forall p recs, v = VDict (("status", VStr "success") :: p ++ [(key, VList recs)]) ->
                 recs <> [].

Lemma nonempty_payload_error key m : nonempty_payload key (error_dict m).
Proof. intros p recs H. injection H. discriminate. Qed.

Lemma candlestick_body_nonempty env symbol tc purpose bars :
  post (nonempty_payload "candlestick_data")
       (candlestick_body env symbol tc purpose bars).
Proof.
  unfold candlestick_body.
  eapply post_bind; [apply post_lookup_bars | intros ob Hob].
  destruct ob as [x|]; [|apply post_ret, nonempty_payload_error].
  eapply post_bind; [apply post_lift | intros items Hi].
  eapply post_bind; [apply post_mapM_length | intros recs Hl].
  eapply post_bind; [apply post_true | intros _u _].
  apply post_ret. intros p recs' H.
  destruct p as [|q p]; [|destruct p; discriminate].
  injection H as <-. intros ->.
  apply (py_iter_truthy x items (Hob x eq_refl) Hi).
  destruct items; [reflexivity | discriminate].
Qed.

Lemma historical_entry_nonempty env start_dt end_dt tf symbol :
  post (nonempty_payload "historical_data")
       (historical_entry env start_dt end_dt tf symbol).
Proof.
  unfold historical_entry.
  eapply post_bind; [apply post_true | intros bars _].
  eapply post_bind; [apply post_lookup_bars | intros ob Hob].
  destruct ob as [x|]; [|apply post_ret, nonempty_payload_error].
  eapply post_bind; [apply post_lift | intros df Hdf].
  destruct (negb (has_column df "t")); [apply post_lift_exc|].
  eapply post_bind; [apply post_mapM_length | intros ts Hts].
  destruct (filter _ hist_columns); [|apply post_lift_exc].
  apply post_ret. intros p recs H.
  destruct p as [|q p]; [discriminate|].
  destruct p as [|q' p]; [|destruct p; discriminate].
  injection H as _ <-.
  pose proof (DataFrame_nonempty x df (Hob x eq_refl) Hdf) as Hne.
  destruct df as [|row df]; [contradiction|].
  destruct ts as [|t ts]; [discriminate|]. discriminate.
Qed.

Lemma get_historical_prices_nonempty env symbols start end_ interval tc h results :
  fst (get_historical_prices env symbols start end_ interval tc h) = Ok (VDict results) ->
  Forall (fun kv => nonempty_payload "historical_data" (snd kv)) results.
Proof.
  unfold get_historical_prices, guard.
  match goal with |- context [match ?b h with _ => _ end] => set (body := b) end.
  assert (Hb : post (fun v => forall results, v = VDict results ->
                 Forall (fun kv => nonempty_payload "historical_data" (snd kv)) results)
                    body).
  { unfold body. eapply post_bind; [apply post_true | intros ? _].
    eapply post_bind; [apply post_true | intros ? _].
    eapply post_bind.
    - apply post_foldM with
        (I := Forall (fun kv => nonempty_payload "historical_data" (snd kv)));
        [|constructor].
      intros acc b Ha. eapply post_bind; [apply historical_entry_nonempty|].
      intros entry He. apply post_ret. apply dict_set_Forall; assumption.
    - intros rs Hr. apply post_ret. intros results' H. injection H as <-. exact Hr. }
  specialize (Hb h). destruct (body h) as [[v|e] h']; simpl in *.
  - intros H. injection H as ->. apply Hb. reflexivity.
  - intros H. injection H as <-.
    repeat constructor; intros p recs H; discriminate.
Qed.

Lemma guard_nonempty key body h v :
  post (nonempty_payload key) body -> fst (guard body h) = Ok v -> nonempty_payload key v.
Proof.
  intros Hb. unfold guard. specialize (Hb h).
  destruct (body h) as [[w|e] h']; simpl in *; intros H; injection H as <-;
    [exact Hb | apply nonempty_payload_error].
Qed.

Ltac answered HA :=
  apply answers_guard in HA;
  apply answers_call in HA; [|intros; grows].

(** C3: when the bars call of a bar operation is answered with a dict that
    has no bars for the symbol (key absent, or an empty or other falsy
    value), the result for that symbol is the error dict; and no success
    result carries an empty bar list (for [get_historical_prices], in any
    per-symbol entry of the dict it returns). *)
Theorem C3_no_bars_is_error (env : Env) :
  (forall symbol tc h kvs,
     answers env (get_today_candlestick_crypto_data env symbol tc) h (VDict kvs) ->
     no_bars symbol kvs ->
     fst (get_today_candlestick_crypto_data env symbol tc h)
     = Ok (error_dict ("No candlestick data found for symbol " ++ symbol ++ ".")))
  /\ (forall symbol tc h kvs,
     answers env (get_today_candlestick_stock_data env symbol tc) h (VDict kvs) ->
     no_bars symbol kvs ->
     fst (get_today_candlestick_stock_data env symbol tc h)
     = Ok (error_dict ("No candlestick data found for symbol " ++ symbol ++ ".")))
  /\ (forall symbol h kvs,
     answers env (get_current_price env symbol) h (VDict kvs) ->
     no_bars symbol kvs ->
     fst (get_current_price env symbol h)
     = Ok (error_dict ("No price data found for " ++ symbol ++ ".")))
  /\ (forall start_dt end_dt tf symbol h kvs,
     answers env (historical_entry env start_dt end_dt tf symbol) h (VDict kvs) ->
     no_bars symbol kvs ->
     fst (historical_entry env start_dt end_dt tf symbol h)
     = Ok (error_dict ("No historical data found for " ++ symbol ++ ".")))
  /\ (forall symbol tc h v,
     fst (get_today_candlestick_crypto_data env symbol tc h) = Ok v ->
     nonempty_payload "candlestick_data" v)
  /\ (forall symbol tc h v,
     fst (get_today_candlestick_stock_data env symbol tc h) = Ok v ->
     nonempty_payload "candlestick_data" v)
  /\ (forall symbols start end_ interval tc h results,
     fst (get_historical_prices env symbols start end_ interval tc h) = Ok (VDict results) ->
     Forall (fun kv => nonempty_payload "historical_data" (snd kv)) results).
Proof.
  split; [|split; [|split; [|split; [|split; [|split]]]]].
  - intros symbol tc h kvs HA Hn. answered HA.
    unfold get_today_candlestick_crypto_data, guard.
    rewrite (bind_step _ _ _ _ _ (call_ok _ _ _ _ HA)).
    unfold candlestick_body. rewrite (bind_step _ _ _ _ _ (lookup_bars_none _ _ _ Hn)).
    reflexivity.
  - intros symbol tc h kvs HA Hn. answered HA.
    unfold get_today_candlestick_stock_data, guard.
    rewrite (bind_step _ _ _ _ _ (call_ok _ _ _ _ HA)).
    unfold candlestick_body. rewrite (bind_step _ _ _ _ _ (lookup_bars_none _ _ _ Hn)).
    reflexivity.
  - intros symbol h kvs HA Hn. apply answers_guard in HA.
    unfold get_current_price in *. unfold guard.
    destruct (has_slash symbol);
      (apply answers_call in HA; [|intros; grows]);
      rewrite (bind_step _ _ _ _ _ (call_ok _ _ _ _ HA));
      rewrite (bind_step _ _ _ _ _ (lookup_bars_none _ _ _ Hn)); reflexivity.
  - intros start_dt end_dt tf symbol h kvs HA Hn.
    unfold historical_entry in *.
    destruct (has_slash symbol);
      (apply answers_call in HA; [|intros; grows]);
      rewrite (bind_step _ _ _ _ _ (call_ok _ _ _ _ HA));
      rewrite (bind_step _ _ _ _ _ (lookup_bars_none _ _ _ Hn)); reflexivity.
  - intros symbol tc h v. apply guard_nonempty.
    eapply post_bind; [apply post_true | intros bars _].
    apply candlestick_body_nonempty.
  - intros symbol tc h v. apply guard_nonempty.
    eapply post_bind; [apply post_true | intros bars _].
    apply candlestick_body_nonempty.
  - apply get_historical_prices_nonempty.
Qed.

Definition mock_no_bars : Env := mock_env (fun _ => Ok (VDict [("BTC/USD", VList [])])).

Lemma C3_no_bars_is_error_witness :
  fst (get_today_candlestick_crypto_data mock_no_bars "BTC/USD" false [])
  = Ok (error_dict ("No candlestick data found for symbol " ++ "BTC/USD" ++ ".")).
Proof.
  apply (proj1 (C3_no_bars_is_error mock_no_bars) "BTC/USD" false []
           [("BTC/USD", VList [])]).
  - eexists _, []. split; reflexivity.
  - right. exists (VList []). split; reflexivity.
Defined.

(** ** Field mapping of bar records *)

Lemma post_apply {A} (P : A -> Prop) m h a : post P m -> fst (m h) = Ok a -> P a.
Proof. intros Hm E. specialize (Hm h). rewrite E in Hm. exact Hm. Qed.

Lemma guard_success body h ps :
  fst (guard body h) = Ok (success_dict ps) -> fst (body h) = Ok (success_dict ps).
Proof.
  unfold guard. destruct (body h) as [[v|e] h']; simpl; intros H; [exact H|].
  injection H. discriminate.
Qed.

Lemma post_mapM_Forall2 {A B} (R : A -> B -> Prop) (f : A -> M B) (l : list A) :
  (forall x, post (R x) (f x)) -> post (Forall2 R l) (mapM f l).
Proof.
  intros Hf. induction l as [|x r IH]; simpl.
  - apply post_ret. constructor.
  - eapply post_bind; [apply Hf | intros y Hy].
    eapply post_bind; [exact IH | intros ys Hys].
    apply post_ret. constructor; assumption.
Qed.

Lemma post_project fields src :
  post (Forall2 (fun f kv => fst kv = fst f /\ getitem src (snd f) = Ok (snd kv)) fields)
       (project fields src).
Proof.
  apply post_mapM_Forall2. intros f.
  eapply post_bind; [apply post_lift | intros x Hx].
  apply post_ret. split; [reflexivity | exact Hx].
Qed.

(** A candlestick record and the vendor bar it is built from. *)
Definition candle_rel (bar r : value) : Prop :=
  exists t o hi lo c v vw n,
    getitem bar "t" = Ok t /\ getitem bar "o" = Ok o /\ getitem bar "h" = Ok hi
    /\ getitem bar "l" = Ok lo /\ getitem bar "c" = Ok c /\ getitem bar "v" = Ok v
    /\ getitem bar "vw" = Ok vw /\ getitem bar "n" = Ok n
    /\ r = VDict [("timestamp", t); ("open", o); ("high", hi); ("low", lo);
                  ("close", c); ("bar_volume", v);
                  ("volumn_weighted_average_price", vw); ("trade_count", n)].

Lemma candle_record_rel bar :
  post (candle_rel bar) (fs <- project candle_fields bar ;; ret (VDict fs)).
Proof.
  eapply post_bind; [apply post_project | intros fs Hfs].
  apply post_ret. unfold candle_fields in Hfs.
  repeat match goal with
  | H : Forall2 _ (_ :: _) _ |- _ => inversion H; subst; clear H
  | H : Forall2 _ [] _ |- _ => inversion H; subst; clear H
  end.
  repeat match goal with
  | H : fst ?kv = _ /\ _ |- _ => destruct kv; destruct H as [? ?]; simpl in *; subst
  end.
  eexists _, _, _, _, _, _, _, _. repeat split; eassumption.
Qed.

Lemma candlestick_body_fields env symbol tc purpose kvs bars :
  assoc symbol kvs = Some (VList bars) ->
  post (fun v => forall recs, v = success_dict [("candlestick_data", VList recs)] ->
                 Forall2 candle_rel bars recs)
       (candlestick_body env symbol tc purpose (VDict kvs)).
Proof.
  intros Hk h. unfold candlestick_body.
  destruct bars as [|b bs].
  - rewrite (bind_step _ _ _ _ _ (lookup_bars_none _ _ _ (or_intror (ex_intro _ _ (conj Hk eq_refl))))).
    simpl. intros recs H. injection H. discriminate.
  - rewrite (bind_step _ _ _ _ _ (lookup_bars_found _ _ _ _ Hk eq_refl)).
    revert h. unfold py_iter.
    eapply post_bind; [apply post_lift | intros items Hi]. injection Hi as <-.
    eapply post_bind; [apply post_mapM_Forall2; apply candle_record_rel | intros recs Hr].
    eapply post_bind; [apply post_true | intros _u _].
    apply post_ret. intros recs' H. injection H as <-. exact Hr.
Qed.

(** A [get_historical_prices] record and the vendor bar it is built from: the
    timestamp goes through the UTC formatting, the other columns are the
    bar's own cells (NaN where the bar lacks a column another bar has). *)
Definition hist_rel (env : Env) (bar r : value) : Prop :=
  exists fs t,
    bar = VDict fs /\ to_utc_iso env (cell fs "t") = Ok t
    /\ r = VDict [("timestamp", t); ("open", cell fs "o"); ("high", cell fs "h");
                  ("low", cell fs "l"); ("close", cell fs "c");
                  ("volume", cell fs "v"); ("trade_count", cell fs "n")].

Lemma records_of_Forall2 l df :
  records_of l = Some df -> Forall2 (fun v fs => v = VDict fs) l df.
Proof.
  revert df. induction l as [|x l IH]; intros df H; simpl in H.
  - injection H as <-. constructor.
  - destruct x; try discriminate.
    destruct (records_of l) eqn:E; [|discriminate].
    injection H as <-. constructor; [reflexivity | apply IH; reflexivity].
Qed.

Lemma hist_records_rel env bars df ts :
  Forall2 (fun v fs => v = VDict fs) bars df ->
  Forall2 (fun row t => to_utc_iso env (cell row "t") = Ok t) df ts ->
  Forall2 (hist_rel env) bars (map (fun p => hist_record (fst p) (snd p)) (combine df ts)).
Proof.
  intros H1. revert ts. induction H1 as [|b fs bars df Hb H1 IH]; intros ts H2.
  - constructor.
  - inversion H2 as [|? t ? ts' Ht H2']; subst. simpl. constructor.
    + exists fs, t. repeat split; assumption.
    + apply IH. exact H2'.
Qed.

Lemma historical_entry_fields env start_dt end_dt tf symbol h kvs bars :
  answers env (historical_entry env start_dt end_dt tf symbol) h (VDict kvs) ->
  assoc symbol kvs = Some (VList bars) ->
  forall p recs,
    fst (historical_entry env start_dt end_dt tf symbol h)
    = Ok (success_dict [p; ("historical_data", VList recs)]) ->
    Forall2 (hist_rel env) bars recs.
Proof.
  intros HA Hk. unfold historical_entry in *.
  intros p recs H.
  destruct (has_slash symbol);
    (apply answers_call in HA; [|intros; grows]);
    rewrite (bind_step _ _ _ _ _ (call_ok _ _ _ _ HA)) in H;
    (destruct bars as [|b bs];
     [ rewrite (bind_step _ _ _ _ _
          (lookup_bars_none _ _ _ (or_intror (ex_intro _ _ (conj Hk eq_refl))))) in H;
       injection H; discriminate
     | rewrite (bind_step _ _ _ _ _ (lookup_bars_found _ _ _ _ Hk eq_refl)) in H ]).
  all: refine (post_apply (fun v => v = success_dict [p; ("historical_data", VList recs)] ->
                                    Forall2 (hist_rel env) (b :: bs) recs)
                          _ _ _ _ H eq_refl).
  all: eapply post_bind; [apply post_lift | intros df Hdf].
  all: destruct (negb (has_column df "t")); [apply post_lift_exc|].
  all: eapply post_bind;
       [apply post_mapM_Forall2 with
          (R := fun row t => to_utc_iso env (cell row "t") = Ok t);
        intros row; apply post_lift
       | intros ts Hts].
  all: destruct (filter _ hist_columns); [|apply post_lift_exc].
  all: apply post_ret; intros H'; injection H' as _ Hr; rewrite <- Hr.
  all: apply hist_records_rel; [|exact Hts].
  all: apply records_of_Forall2; unfold DataFrame in Hdf.
  all: destruct (records_of (b :: bs)); [injection Hdf as ->; reflexivity | discriminate].
Qed.

Definition mock_full_bar : Env := mock_env (fun _ => Ok (VDict [("AAPL", VList [full_bar])])).

Definition full_bar_candle : list (string * value) :=
  [("timestamp", VStr "2025-06-30T13:00:00Z"); ("open", VNum (20202 # 100));
   ("high", VNum (20217 # 100)); ("low", VNum (20057 # 100));
   ("close", VNum (40150 # 200)); ("bar_volume", VNum 124276);
   ("volumn_weighted_average_price", VNum (201097233 # 1000000));
   ("trade_count", VNum 1628)].

(** C4 (as stated, refuted): the candlestick operations have no ["volume"]
    field; a bar with ["v"] = 124276 yields a record whose volume sits
    under ["bar_volume"]. *)
Lemma C4_candlestick_record_has_no_volume :
  fst (get_today_candlestick_stock_data mock_full_bar "AAPL" false [])
    = Ok (success_dict [("candlestick_data", VList [VDict full_bar_candle])])
  /\ getitem full_bar "v" = Ok (VNum 124276)
  /\ assoc "volume" full_bar_candle = None
  /\ assoc "bar_volume" full_bar_candle = Some (VNum 124276).
Proof. repeat split; reflexivity. Qed.

(** C4 (amended): on the success path each candlestick record holds the
    bar's ["t"], ["o"], ["h"], ["l"], ["c"] under ["timestamp"], ["open"],
    ["high"], ["low"], ["close"] and its ["v"] under ["bar_volume"], all
    unchanged; each [get_historical_prices] record holds the bar's ["o"],
    ["h"], ["l"], ["c"], ["v"] cells under ["open"], ["high"], ["low"],
    ["close"], ["volume"] unchanged and the UTC-formatted ["t"] under
    ["timestamp"].  (Numbers are modelled as rationals: pandas' int-to-float
    column widening is not represented.) *)
Theorem C4_bar_fields (env : Env) :
  (forall symbol tc h kvs bars recs,
     answers env (get_today_candlestick_crypto_data env symbol tc) h (VDict kvs) ->
     assoc symbol kvs = Some (VList bars) ->
     fst (get_today_candlestick_crypto_data env symbol tc h)
       = Ok (success_dict [("candlestick_data", VList recs)]) ->
     Forall2 candle_rel bars recs)
  /\ (forall symbol tc h kvs bars recs,
     answers env (get_today_candlestick_stock_data env symbol tc) h (VDict kvs) ->
     assoc symbol kvs = Some (VList bars) ->
     fst (get_today_candlestick_stock_data env symbol tc h)
       = Ok (success_dict [("candlestick_data", VList recs)]) ->
     Forall2 candle_rel bars recs)
  /\ (forall start_dt end_dt tf symbol h kvs bars p recs,
     answers env (historical_entry env start_dt end_dt tf symbol) h (VDict kvs) ->
     assoc symbol kvs = Some (VList bars) ->
     fst (historical_entry env start_dt end_dt tf symbol h)
       = Ok (success_dict [p; ("historical_data", VList recs)]) ->
     Forall2 (hist_rel env) bars recs).
Proof.
  split; [|split].
  - intros symbol tc h kvs bars recs HA Hk H. answered HA.
    apply guard_success in H.
    rewrite (bind_step _ _ _ _ _ (call_ok _ _ _ _ HA)) in H.
    exact (post_apply _ _ _ _ (candlestick_body_fields env symbol tc _ kvs bars Hk) H
             recs eq_refl).
  - intros symbol tc h kvs bars recs HA Hk H. answered HA.
    apply guard_success in H.
    rewrite (bind_step _ _ _ _ _ (call_ok _ _ _ _ HA)) in H.
    exact (post_apply _ _ _ _ (candlestick_body_fields env symbol tc _ kvs bars Hk) H
             recs eq_refl).
  - intros start_dt end_dt tf symbol h kvs bars p recs HA Hk H.
    exact (historical_entry_fields env start_dt end_dt tf symbol h kvs bars HA Hk p recs H).
Qed.

Lemma C4_bar_fields_witness :
  Forall2 candle_rel [full_bar] [VDict full_bar_candle].
Proof.
  apply (proj1 (proj2 (C4_bar_fields mock_full_bar)) "AAPL" false []
           [("AAPL", VList [full_bar])]).
  - eexists _, []. split; reflexivity.
  - reflexivity.
  - reflexivity.
Defined.

(** ** Routing and timeframe of bar requests *)

(** The bar request of a call, if it is one. *)
Definition bars_request (c : vendor_call) : option BarsRequest :=
  match c with
  | CallGetCryptoBars r | CallGetStockBars r => Some r
  | _ => None
  end.

(** A bar request went to the crypto client exactly when its symbol has a
    ["/"], and to the stock client otherwise. *)
Definition routed (c : vendor_call) : Prop :=
  match c with
  | CallGetCryptoBars r => has_slash (br_symbol_or_symbols r) = true
  | CallGetStockBars r => has_slash (br_symbol_or_symbols r) = false
  | _ => False
  end.

Lemma call_then_pure env c (k : value -> M value) h :
  (forall a, no_call (k a)) -> snd (bind (call env c) k h) = h ++ [c].
Proof.
  intros Hk. unfold bind, call. destruct (vendor env h c) as [a|e]; simpl; [|reflexivity].
  apply Hk.
Qed.

Ltac pure :=
  repeat match goal with
  | |- no_call (bind _ _) => apply no_call_bind; [|intros ?]
  | |- no_call (mapM _ _) => apply no_call_mapM; intros ?
  | |- no_call (if ?b then _ else _) => destruct b
  | |- no_call (match ?x with _ => _ end) => destruct x
  | |- no_call (lookup_bars _ _) => unfold lookup_bars
  | |- no_call (price_result _ _) => unfold price_result
  | |- no_call (ret _) => apply no_call_ret
  | |- no_call (lift _) => apply no_call_lift
  end.

Lemma historical_entry_trace env start_dt end_dt tf symbol h :
  exists c, snd (historical_entry env start_dt end_dt tf symbol h) = h ++ [c]
            /\ routed c
            /\ option_map br_symbol_or_symbols (bars_request c) = Some symbol
            /\ option_map br_timeframe (bars_request c) = Some tf.
Proof.
  unfold historical_entry.
  destruct (has_slash symbol) eqn:Hs; eexists;
    (split; [apply call_then_pure; intros; pure | simpl; auto]).
Qed.

Lemma foldM_trace {A B} (P : B -> vendor_call -> Prop) (f : A -> B -> M A) :
  (forall a b h, exists c, snd (f a b h) = h ++ [c] /\ P b c) ->
  forall l a h, exists n cs, snd (foldM f a l h) = h ++ cs /\ Forall2 P (firstn n l) cs.
Proof.
  intros Hf l. induction l as [|b l IH]; intros a h; simpl.
  - exists 0%nat, []. split; [symmetry; apply app_nil_r | constructor].
  - destruct (Hf a b h) as (c & Hc & Pc). unfold bind.
    destruct (f a b h) as [[a'|e] h'] eqn:E; simpl in Hc; subst h'.
    + destruct (IH a' (h ++ [c])) as (n & cs & Hcs & Fcs).
      exists (S n), (c :: cs). rewrite Hcs, <- app_assoc. split; [reflexivity|].
      constructor; assumption.
    + exists 1%nat, [c]. split; [reflexivity | constructor; [exact Pc | constructor]].
Qed.

Definition interval_timeframe (interval : string) : TimeFrame :=
  match assoc (py_lower interval) tf_map with Some t => t | None => Day end.

Lemma get_historical_prices_trace env symbols start end_ interval tc h :
  exists n calls,
    snd (get_historical_prices env symbols start end_ interval tc h) = h ++ calls
    /\ Forall2 (fun s c => routed c
                  /\ option_map br_symbol_or_symbols (bars_request c) = Some s
                  /\ option_map br_timeframe (bars_request c)
                     = Some (interval_timeframe interval))
               (firstn n (symbol_list_of symbols)) calls.
Proof.
  unfold get_historical_prices. rewrite guard_trace. unfold bind at 1, lift at 1.
  destruct (fromisoformat env start) as [s|e]; simpl;
    [|exists 0%nat, []; split; [symmetry; apply app_nil_r | constructor]].
  unfold bind at 1, lift at 1.
  destruct (fromisoformat env end_) as [e|e]; simpl;
    [|exists 0%nat, []; split; [symmetry; apply app_nil_r | constructor]].
  unfold bind at 1. fold (interval_timeframe interval).
  match goal with |- context [foldM ?f ?a0 ?l h] =>
    assert (Hf : forall a b h0, exists c, snd (f a b h0) = h0 ++ [c]
                  /\ routed c
                  /\ option_map br_symbol_or_symbols (bars_request c) = Some b
                  /\ option_map br_timeframe (bars_request c)
                     = Some (interval_timeframe interval));
    [| destruct (foldM_trace _ f Hf l a0 h) as (n & cs & Hcs & Fcs);
       exists n, cs; split; [|exact Fcs]]
  end.
  - intros a b h0. destruct (historical_entry_trace env s e (interval_timeframe interval) b h0)
      as (c & Hc & Hr).
    exists c. split; [|exact Hr].
    unfold bind. destruct (historical_entry _ _ _ _ _ h0) as [[v|x] h'] eqn:E;
      simpl in *; exact Hc.
  - destruct (foldM _ _ _ h) as [[rs|x] h'] eqn:E; simpl in *; exact Hcs.
Qed.

Lemma get_current_price_trace env symbol h :
  exists c, snd (get_current_price env symbol h) = h ++ [c]
            /\ routed c
            /\ option_map br_symbol_or_symbols (bars_request c) = Some symbol.
Proof.
  unfold get_current_price. rewrite guard_trace.
  destruct (has_slash symbol) eqn:Hs; eexists;
    (split; [apply call_then_pure; intros; pure | simpl; auto]).
Qed.

Lemma interval_timeframe_eq interval :
  interval_timeframe interval =
  if py_lower interval =? "minute" then Minute
  else if py_lower interval =? "hour" then Hour
  else Day.
Proof.
  unfold interval_timeframe, tf_map. simpl.
  destruct (py_lower interval =? "minute"), (py_lower interval =? "hour"),
    (py_lower interval =? "day"); reflexivity.
Qed.

Lemma interval_timeframe_other interval :
  py_lower interval <> "minute" -> py_lower interval <> "hour" ->
  interval_timeframe interval = Day.
Proof.
  intros H1 H2. rewrite interval_timeframe_eq.
  apply String.eqb_neq in H1, H2. rewrite H1, H2. reflexivity.
Qed.

(** * Claim C6

    (C6) Whatever the symbol, [get_current_price] makes exactly one bar
    request, for that symbol, and it goes to the crypto client when the
    symbol contains ["/"] and to the stock client otherwise; in
    [get_historical_prices] the requests issued, one per symbol of the
    list in order (until the loop stops on an exception), obey the same
    routing. *)
Theorem C6_symbol_routing (env : Env) :
  (forall symbol h,
     exists c, snd (get_current_price env symbol h) = h ++ [c]
               /\ routed c
               /\ option_map br_symbol_or_symbols (bars_request c) = Some symbol)
  /\ (forall symbols start end_ interval tc h,
        exists n calls,
          snd (get_historical_prices env symbols start end_ interval tc h) = h ++ calls
          /\ Forall2 (fun s c => routed c
                        /\ option_map br_symbol_or_symbols (bars_request c) = Some s)
                     (firstn n (symbol_list_of symbols)) calls).
Proof.
  split.
  - apply get_current_price_trace.
  - intros. destruct (get_historical_prices_trace env symbols start end_ interval tc h)
      as (n & calls & Ht & Hf).
    exists n, calls. split; [exact Ht|].
    eapply Forall2_impl; [|exact Hf]. simpl. tauto.
Qed.

(** * Claim C7

    (C7) In [get_historical_prices] every bar request uses the timeframe
    Minute when the lower-cased interval is ["minute"], Hour when it is
    ["hour"], and Day otherwise; and an interval whose lower-cased form is
    neither ["minute"] nor ["hour"] gives exactly the result and the
    requests of the interval ["day"], so no error comes from it. *)
Theorem C7_interval_timeframe (env : Env) symbols start end_ interval tc h :
  (exists n calls,
     snd (get_historical_prices env symbols start end_ interval tc h) = h ++ calls
     /\ Forall2 (fun _ c => option_map br_timeframe (bars_request c)
                           = Some (if py_lower interval =? "minute" then Minute
                                   else if py_lower interval =? "hour" then Hour
                                   else Day))
                (firstn n (symbol_list_of symbols)) calls)
  /\ (py_lower interval <> "minute" -> py_lower interval <> "hour" ->
      get_historical_prices env symbols start end_ interval tc h
      = get_historical_prices env symbols start end_ "day" tc h).
Proof.
  split.
  - destruct (get_historical_prices_trace env symbols start end_ interval tc h)
      as (n & calls & Ht & Hf).
    exists n, calls. split; [exact Ht|].
    eapply Forall2_impl; [|exact Hf]. simpl. intros ? ? (_ & _ & Htf).
    rewrite Htf, interval_timeframe_eq. reflexivity.
  - intros H1 H2. unfold get_historical_prices.
    fold (interval_timeframe interval). fold (interval_timeframe "day").
    rewrite (interval_timeframe_other interval H1 H2).
    replace (interval_timeframe "day") with Day by reflexivity.
    reflexivity.
Qed.

Lemma C7_interval_timeframe_witness :
  py_lower "Weekly" <> "minute" /\ py_lower "Weekly" <> "hour" /\
  get_historical_prices (mock_env (fun _ => Ok VNull)) "AAPL" "2025-06-01"
    "2025-06-30" "Weekly" false []
  = get_historical_prices (mock_env (fun _ => Ok VNull)) "AAPL" "2025-06-01"
    "2025-06-30" "day" false [].
Proof.
  assert (H1 : py_lower "Weekly" <> "minute") by (vm_compute; discriminate).
  assert (H2 : py_lower "Weekly" <> "hour") by (vm_compute; discriminate).
  split; [exact H1 | split; [exact H2|]].
  exact (proj2 (C7_interval_timeframe (mock_env (fun _ => Ok VNull)) "AAPL"
                  "2025-06-01" "2025-06-30" "Weekly" false []) H1 H2).
Defined.

(** * Claim C10

    (C10) [fetch_today_news_for_symbol] never raises, and its result is
    either the error dictionary carrying its text under ["message"] or the
    success dictionary with the ["news"] list: the branch that returns the
    error text under ["news"] is never reached, since a non-empty news list
    always yields a non-empty summary list. *)
Theorem C10_news_error_under_message (env : Env) symbol h :
  exists v h', fetch_today_news_for_symbol env symbol h = (Ok v, h')
    /\ ((exists m, v = error_dict m) \/ (exists l, v = success_dict [("news", VList l)]))
    /\ forall m, v <> VDict [("status", VStr "error"); ("news", VStr m)].
Proof.
  destruct (fetch_today_news_for_symbol_shape env symbol h) as (v & h' & Hv & Hs).
  exists v, h'. split; [exact Hv|]. split; [exact Hs|].
  intros m ->. unfold error_dict, success_dict in Hs.
  destruct Hs as [(m' & Hm) | (l & Hl)]; inversion Hm || inversion Hl.
Qed.

(** ** The result of [get_historical_prices] *)

Lemma dict_set_keys results k v x :
  In x (map fst (dict_set results k v)) <-> In x (map fst results) \/ x = k.
Proof.
  induction results as [|[k' v'] r IH]; simpl.
  - split; [intros [H|[]]; right; congruence | intros [[]|H]; left; congruence].
  - destruct (String.eqb k k') eqn:E; simpl.
    + apply String.eqb_eq in E. subst k'.
      split; [intros [H|H]; auto | intros [[H|H]|H]; auto].
    + rewrite IH. split; [intros [H|[H|H]]; auto | intros [[H|H]|H]; auto].
Qed.

Lemma dict_set_NoDup results k v :
  NoDup (map fst results) -> NoDup (map fst (dict_set results k v)).
Proof.
  induction results as [|[k' v'] r IH]; simpl; intros Hn.
  - repeat constructor. intros [].
  - inversion Hn as [|? ? Hnin Hr]; subst.
    destruct (String.eqb k k') eqn:E; simpl.
    + constructor; assumption.
    + constructor; [|apply IH, Hr].
      rewrite dict_set_keys. intros [H|H]; [contradiction|].
      subst k'. rewrite String.eqb_refl in E. discriminate.
Qed.

Lemma dict_set_entries (E : string -> value -> Prop) results k v :
  Forall (fun kv => E (fst kv) (snd kv)) results -> E k v ->
  Forall (fun kv => E (fst kv) (snd kv)) (dict_set results k v).
Proof.
  intros Hr Hv. induction Hr as [|[k' v'] r Hkv Hr IH]; simpl.
  - constructor; [exact Hv | constructor].
  - destruct (String.eqb k k') eqn:Ek; constructor; auto.
    apply String.eqb_eq in Ek. subst k'. exact Hv.
Qed.

(** The loop [for symbol in symbol_list: ... results[symbol] = entry]. *)
Lemma fold_dict_spec (P : string -> vendor_call -> Prop) (E : string -> value -> Prop)
    (f : list (string * value) -> string -> M (list (string * value))) :
  (forall a b h, match f a b h with
                 | (Ok rs, h') => exists v c, rs = dict_set a b v /\ E b v
                                              /\ h' = h ++ [c] /\ P b c
                 | (Exc _, _) => True
                 end) ->
  forall l acc h,
    match foldM f acc l h with
    | (Ok rs, h') =>
        (NoDup (map fst acc) -> NoDup (map fst rs))
        /\ (forall k, In k (map fst rs) <-> In k (map fst acc) \/ In k l)
        /\ (Forall (fun kv => E (fst kv) (snd kv)) acc ->
            Forall (fun kv => E (fst kv) (snd kv)) rs)
        /\ exists calls, h' = h ++ calls /\ Forall2 P l calls
    | (Exc _, _) => True
    end.
Proof.
  intros Hf l. induction l as [|b l IH]; intros acc h; simpl.
  - split; [tauto|]. split; [intros k; simpl; tauto|]. split; [tauto|].
    exists []. split; [symmetry; apply app_nil_r | constructor].
  - unfold bind. specialize (Hf acc b h).
    destruct (f acc b h) as [[a'|e] h1]; [|exact I].
    destruct Hf as (v & c & -> & Hv & -> & Pc).
    specialize (IH (dict_set acc b v) (h ++ [c])).
    destruct (foldM f (dict_set acc b v) l (h ++ [c])) as [[rs|e] h2]; [|exact I].
    destruct IH as (Hnd & Hk & He & calls & -> & Fc).
    split; [intros Hn; apply Hnd, dict_set_NoDup, Hn|].
    split; [intros k; rewrite Hk, dict_set_keys; simpl;
            split; [intros [[H|H]|H] | intros [H|[H|H]]]; auto|].
    split; [intros Ha; apply He, dict_set_entries; assumption|].
    exists (c :: calls). rewrite <- app_assoc. split; [reflexivity | constructor; assumption].
Qed.

(** A per-symbol entry: the "no data" error, or a success carrying the
    symbol and a non-empty list of records. *)
Definition entry_ok (symbol : string) (e : value) : Prop :=
  (exists m, e = error_dict m)
  \/ exists r rs, e = success_dict [("symbol", VStr symbol);
                                    ("historical_data", VList (r :: rs))].

Lemma historical_entry_ok env start_dt end_dt tf symbol :
  post (entry_ok symbol) (historical_entry env start_dt end_dt tf symbol).
Proof.
  unfold historical_entry.
  eapply post_bind; [apply post_true | intros bars _].
  eapply post_bind; [apply post_lookup_bars | intros ob Hob].
  destruct ob as [x|]; [|apply post_ret; left; eexists; reflexivity].
  eapply post_bind; [apply post_lift | intros df Hdf].
  destruct (negb (has_column df "t")); [apply post_lift_exc|].
  eapply post_bind; [apply post_mapM_length | intros ts Hts].
  destruct (filter _ hist_columns); [|apply post_lift_exc].
  apply post_ret. right.
  pose proof (DataFrame_nonempty x df (Hob x eq_refl) Hdf) as Hne.
  destruct df as [|row df]; [contradiction|].
  destruct ts as [|t ts]; [discriminate|]. simpl. eexists _, _. reflexivity.
Qed.

(** The per-symbol step of [get_historical_prices], read off its code. *)
Lemma historical_step env start_dt end_dt tf a b h :
  match (entry <- historical_entry env start_dt end_dt tf b ;;
         ret (dict_set a b entry)) h with
  | (Ok rs, h') => exists v c, rs = dict_set a b v /\ entry_ok b v /\ h' = h ++ [c]
                     /\ option_map br_symbol_or_symbols (bars_request c) = Some b
  | (Exc _, _) => True
  end.
Proof.
  destruct (historical_entry_trace env start_dt end_dt tf b h) as (c & Hc & _ & Hs & _).
  pose proof (historical_entry_ok env start_dt end_dt tf b h) as Hok.
  unfold bind. destruct (historical_entry env start_dt end_dt tf b h) as [[v|e] h1];
    simpl in *; [|exact I].
  exists v, c. subst h1. auto.
Qed.

Lemma get_historical_prices_spec env symbols start end_ interval tc h :
  exists v h', get_historical_prices env symbols start end_ interval tc h = (Ok v, h')
  /\ ((exists m, v = error_dict m)
      \/ exists results calls,
           v = VDict results /\ h' = h ++ calls
           /\ NoDup (map fst results)
           /\ (forall k, In k (map fst results) <-> In k (symbol_list_of symbols))
           /\ Forall (fun kv => entry_ok (fst kv) (snd kv)) results
           /\ Forall2 (fun s c => option_map br_symbol_or_symbols (bars_request c) = Some s)
                      (symbol_list_of symbols) calls).
Proof.
  unfold get_historical_prices, guard, bind at 1 2, lift at 1 2.
  destruct (fromisoformat env start) as [s|e];
    [|eexists _, _; split; [reflexivity | left; eexists; reflexivity]].
  destruct (fromisoformat env end_) as [e|e];
    [|eexists _, _; split; [reflexivity | left; eexists; reflexivity]].
  unfold bind at 1.
  match goal with |- context [foldM ?f [] ?l h] =>
    pose proof (fold_dict_spec
                  (fun s0 c => option_map br_symbol_or_symbols (bars_request c) = Some s0)
                  entry_ok f
                  (fun a b h0 => historical_step env s e _ a b h0) l [] h) as HF;
    destruct (foldM f [] l h) as [[rs|x] h'] eqn:Ef
  end.
  - destruct HF as (Hnd & Hk & He & calls & -> & Fc).
    eexists _, _. split; [reflexivity|]. right. exists rs, calls.
    split; [reflexivity|]. split; [reflexivity|].
    split; [apply Hnd; constructor|].
    split; [intros k; rewrite Hk; simpl; tauto|].
    split; [apply He; constructor | exact Fc].
  - eexists _, _. split; [reflexivity | left; eexists; reflexivity].
Qed.

(** * Claim C1 *)

(** C1 (as stated, refuted): [get_historical_prices] does not return a
    status-tagged dict on every comma-separated symbols string: on the
    empty string its symbol list is empty and it returns the empty dict
    [{}], which has no ["status"] key. *)
Lemma C1_historical_prices_empty_symbols :
  get_historical_prices (mock_env (fun _ => Ok VNull)) ""
    "2025-06-01" "2025-06-30" "day" false [] = (Ok (VDict []), [])
  /\ ~ tagged (VDict []).
Proof.
  split; [reflexivity|].
  intros [[m H]|[p H]]; discriminate H.
Qed.

Lemma entry_ok_tagged symbol e : entry_ok symbol e -> tagged e.
Proof.
  intros [[m ->]|(r & rs & ->)]; [apply tagged_error | apply tagged_success].
Qed.

(** The result of [get_historical_prices]: a top-level error dict, or a
    dict whose keys are exactly the listed symbols, each once, each bound
    to a status-tagged entry; the dict is empty when no symbol is listed. *)
Lemma get_historical_prices_keys_tagged env symbols start end_ interval tc h :
  exists v h', get_historical_prices env symbols start end_ interval tc h = (Ok v, h')
  /\ ((exists m, v = error_dict m)
      \/ exists results,
           v = VDict results
           /\ NoDup (map fst results)
           /\ (forall k, In k (map fst results) <-> In k (symbol_list_of symbols))
           /\ Forall (fun kv => tagged (snd kv)) results
           /\ (symbol_list_of symbols = [] -> results = [])).
Proof.
  destruct (get_historical_prices_spec env symbols start end_ interval tc h)
    as (v & h' & Hv & [Herr | (results & calls & Hr & _ & Hnd & Hk & He & _)]).
  - exists v, h'. split; [exact Hv | left; exact Herr].
  - exists v, h'. split; [exact Hv|]. right. exists results.
    split; [exact Hr|]. split; [exact Hnd|]. split; [exact Hk|].
    split; [eapply Forall_impl; [|exact He]; intros kv; apply entry_ok_tagged|].
    intros Hnil. destruct results as [|[k x] r]; [reflexivity|].
    exfalso. specialize (Hk k). rewrite Hnil in Hk. apply Hk. left. reflexivity.
Qed.

(** C1 (amended): for every backend behaviour (every answer, every raised
    Exception, answers depending on earlier calls) no tool raises.  Every
    tool other than [get_historical_prices] returns a status-tagged dict
    ([{"status": "error", "message": m}] or a dict led by
    ["status": "success"]).  [get_historical_prices] returns a top-level
    error dict (a date that does not parse, a vendor call that raises, or
    a malformed vendor answer), or a dict whose keys are exactly the
    symbols of the comma-separated string, each once, each mapped to a
    status-tagged entry; when the string names no non-blank symbol that
    dict is empty, [{}], and has no ["status"] key. *)
Theorem C1_tools_never_raise (env : Env) :
  (forall symbol, tagged_tool (fetch_today_news_for_symbol env symbol))
  /\ tagged_tool (get_supported_crypto_symbols env)
  /\ (forall symbol quantity side tif,
        tagged_tool (_place_market_order env symbol quantity side tif))
  /\ (forall symbol quantity side,
        tagged_tool (place_crypto_market_order env symbol quantity side))
  /\ (forall symbol quantity side,
        tagged_tool (place_stock_market_order env symbol quantity side))
  /\ tagged_tool (get_all_orders env)
  /\ tagged_tool (get_open_orders env)
  /\ tagged_tool (get_closed_orders env)
  /\ (forall order_id, tagged_tool (cancel_order_by_id env order_id))
  /\ (forall tc, tagged_tool (get_all_open_positions env tc))
  /\ tagged_tool (panic_exit env)
  /\ tagged_tool (close_all_positions env)
  /\ (forall tc, tagged_tool (get_account_information env tc))
  /\ (forall symbol tc, tagged_tool (get_today_candlestick_crypto_data env symbol tc))
  /\ (forall symbol tc, tagged_tool (get_today_candlestick_stock_data env symbol tc))
  /\ (forall symbol, tagged_tool (get_current_price env symbol))
  /\ (forall symbols start end_ interval tc h,
        exists v h', get_historical_prices env symbols start end_ interval tc h = (Ok v, h')
        /\ ((exists m, v = error_dict m)
            \/ exists results,
                 v = VDict results
                 /\ NoDup (map fst results)
                 /\ (forall k, In k (map fst results) <-> In k (symbol_list_of symbols))
                 /\ Forall (fun kv => tagged (snd kv)) results
                 /\ (symbol_list_of symbols = [] -> results = [])))
  /\ (forall symbol, tagged_tool (get_yesterdays_price_action env symbol))
  /\ (forall symbol start end_ interval tc,
        tagged_tool (plot_price_action env symbol start end_ interval tc)).
Proof.
  repeat split; intros; try (intros h);
  try apply place_market_order_tagged;
  try apply list_orders_tagged;
  try apply get_historical_prices_keys_tagged.
  - destruct (fetch_today_news_for_symbol_shape env symbol h) as (v & h' & E & S).
    exists v, h'. split; [exact E|].
    destruct S as [[m ->]|[l ->]]; [apply tagged_error | apply tagged_success].
  - unfold get_supported_crypto_symbols. tool.
  - unfold cancel_order_by_id. tool.
  - unfold get_all_open_positions. tool.
  - unfold panic_exit. tool.
  - unfold close_all_positions. tool.
  - unfold get_account_information. tool.
  - unfold get_today_candlestick_crypto_data, candlestick_body. tool.
  - unfold get_today_candlestick_stock_data, candlestick_body. tool.
  - unfold get_current_price, price_result. tool.
  - unfold get_yesterdays_price_action. tool.
  - unfold plot_price_action. tool.
Qed.

(** * Further properties of the tools *)

(** ** Which vendor calls a tool may issue *)

(** Every call [m] appends to the trace satisfies [P]. *)
Definition issues (P : vendor_call -> Prop) {A} (m : M A) : Prop :=
  forall h, exists cs, snd (m h) = h ++ cs /\ Forall P cs.

(** Calls that change the account: an order, a cancellation, a close-out. *)
Definition trading_call (c : vendor_call) : bool :=
  match c with
  | CallSubmitOrder _ | CallCancelOrderById _ | CallCloseAllPositions _ => true
  | _ => false
  end.

Definition artifact_call (c : vendor_call) : bool :=
  match c with CallSaveArtifact _ => true | _ => false end.

Lemma issues_ret P {A} (a : A) : issues P (ret a).
Proof. intros h. exists []. split; [symmetry; apply app_nil_r | constructor]. Qed.

Lemma issues_lift P {A} (r : result A) : issues P (lift r).
Proof. intros h. exists []. split; [symmetry; apply app_nil_r | constructor]. Qed.

Lemma issues_call (P : vendor_call -> Prop) env c : P c -> issues P (call env c).
Proof. intros Hc h. exists [c]. split; [reflexivity | repeat constructor; exact Hc]. Qed.

Lemma issues_bind P {A B} (m : M A) (k : A -> M B) :
  issues P m -> (forall a, issues P (k a)) -> issues P (bind m k).
Proof.
  intros Hm Hk h. unfold bind. destruct (Hm h) as (cs & Hcs & Fcs).
  destruct (m h) as [[a|e] h']; simpl in *; subst h'.
  - destruct (Hk a (h ++ cs)) as (cs' & Hcs' & Fcs').
    exists (cs ++ cs'). rewrite app_assoc. split; [exact Hcs'|].
    apply Forall_app; split; assumption.
  - exists cs. split; [reflexivity | exact Fcs].
Qed.

Lemma issues_mapM P {A B} (f : A -> M B) (l : list A) :
  (forall x, issues P (f x)) -> issues P (mapM f l).
Proof.
  intros Hf. induction l as [|x r IH]; simpl.
  - apply issues_ret.
  - apply issues_bind; [apply Hf | intros y].
    apply issues_bind; [exact IH | intros ys]. apply issues_ret.
Qed.

Lemma issues_foldM P {A B} (f : A -> B -> M A) (l : list B) :
  (forall a b, issues P (f a b)) -> forall a, issues P (foldM f a l).
Proof.
  intros Hf. induction l as [|b r IH]; intros a; simpl.
  - apply issues_ret.
  - apply issues_bind; [apply Hf | intros a'; apply IH].
Qed.

Lemma issues_guard P (body : M value) : issues P body -> issues P (guard body).
Proof.
  intros Hb h. destruct (Hb h) as (cs & Hcs & Fcs). exists cs.
  rewrite guard_trace. split; assumption.
Qed.

(** Walk a tool down to its calls; what is left is one goal [P c] per
    call site, with the branch conditions that lead to it. *)
Ltac calls_of :=
  repeat match goal with
  | |- issues _ (guard _) => apply issues_guard
  | |- issues _ (bind _ _) => apply issues_bind; [|intros ?]
  | |- issues _ (mapM _ _) => apply issues_mapM; intros ?
  | |- issues _ (foldM _ _ _) => apply issues_foldM; intros ? ?
  | |- issues _ (let _ := _ in _) => cbv zeta
  | |- issues _ (if ?b then _ else _) => destruct b eqn:?
  | |- issues _ (match ?x with _ => _ end) => destruct x
  | |- issues _ (call _ _) => apply issues_call
  | |- issues _ (ret _) => apply issues_ret
  | |- issues _ (lift _) => apply issues_lift
  | |- issues _ (save_chart _ _ _) => unfold save_chart
  | |- issues _ (project _ _) => unfold project
  | |- issues _ (lookup_bars _ _) => unfold lookup_bars
  | |- issues _ (price_result _ _) => unfold price_result
  | |- issues _ (candlestick_body _ _ _ _ _) => unfold candlestick_body
  | |- issues _ (historical_entry _ _ _ _ _) => unfold historical_entry
  | |- issues _ (get_historical_prices _ _ _ _ _ _) => unfold get_historical_prices
  | |- issues _ (entry_succeeded _ _) => unfold entry_succeeded
  end.

Definition never_trades {A} (m : M A) : Prop :=
  issues (fun c => trading_call c = false) m.

Definition never_uploads {A} (m : M A) : Prop :=
  issues (fun c => artifact_call c = false) m.

(** X1: the read tools never place, cancel or close anything: every call
    they issue is a read request or a chart upload. *)
Theorem read_tools_never_trade (env : Env) :
  (forall symbol, never_trades (fetch_today_news_for_symbol env symbol))
  /\ never_trades (get_supported_crypto_symbols env)
  /\ never_trades (get_all_orders env) /\ never_trades (get_open_orders env)
  /\ never_trades (get_closed_orders env)
  /\ (forall tc, never_trades (get_all_open_positions env tc))
  /\ (forall tc, never_trades (get_account_information env tc))
  /\ (forall symbol tc, never_trades (get_today_candlestick_crypto_data env symbol tc))
  /\ (forall symbol tc, never_trades (get_today_candlestick_stock_data env symbol tc))
  /\ (forall symbol, never_trades (get_current_price env symbol))
  /\ (forall symbols start end_ interval tc,
        never_trades (get_historical_prices env symbols start end_ interval tc))
  /\ (forall symbol, never_trades (get_yesterdays_price_action env symbol))
  /\ (forall symbol start end_ interval tc,
        never_trades (plot_price_action env symbol start end_ interval tc)).
Proof.
  unfold never_trades.
  repeat split; intros;
    unfold fetch_today_news_for_symbol, get_supported_crypto_symbols,
      get_all_orders, get_open_orders, get_closed_orders, list_orders,
      get_all_open_positions, get_account_information,
      get_today_candlestick_crypto_data, get_today_candlestick_stock_data,
      get_current_price, get_yesterdays_price_action, plot_price_action;
    calls_of; reflexivity.
Qed.

(** X2: no tool uploads a chart unless [SAVE_CHART_ARTIFACT] is set and a
    tool context is given; the tools without a chart never upload one. *)
Theorem artifacts_only_when_enabled (env : Env) (tc : bool) :
  SAVE_CHART_ARTIFACT env && tc = false ->
  never_uploads (get_all_open_positions env tc)
  /\ never_uploads (get_account_information env tc)
  /\ (forall symbol, never_uploads (get_today_candlestick_crypto_data env symbol tc))
  /\ (forall symbol, never_uploads (get_today_candlestick_stock_data env symbol tc))
  /\ (forall symbols start end_ interval,
        never_uploads (get_historical_prices env symbols start end_ interval tc))
  /\ (forall symbol start end_ interval,
        never_uploads (plot_price_action env symbol start end_ interval tc))
  /\ (forall symbol, never_uploads (fetch_today_news_for_symbol env symbol))
  /\ never_uploads (get_supported_crypto_symbols env)
  /\ (forall symbol quantity side, never_uploads (place_crypto_market_order env symbol quantity side))
  /\ (forall symbol quantity side, never_uploads (place_stock_market_order env symbol quantity side))
  /\ never_uploads (get_all_orders env) /\ never_uploads (get_open_orders env)
  /\ never_uploads (get_closed_orders env)
  /\ (forall order_id, never_uploads (cancel_order_by_id env order_id))
  /\ never_uploads (panic_exit env) /\ never_uploads (close_all_positions env)
  /\ (forall symbol, never_uploads (get_current_price env symbol))
  /\ (forall symbol, never_uploads (get_yesterdays_price_action env symbol)).
Proof.
  intros Hoff. unfold never_uploads.
  repeat split; intros;
    unfold fetch_today_news_for_symbol, get_supported_crypto_symbols,
      place_crypto_market_order, place_stock_market_order, _place_market_order,
      get_all_orders, get_open_orders, get_closed_orders, list_orders,
      cancel_order_by_id, panic_exit, close_all_positions,
      get_all_open_positions, get_account_information,
      get_today_candlestick_crypto_data, get_today_candlestick_stock_data,
      get_current_price, get_yesterdays_price_action, plot_price_action;
    calls_of; first [reflexivity | congruence].
Qed.

Lemma artifacts_only_when_enabled_witness :
  SAVE_CHART_ARTIFACT (mock_env (fun _ => Ok VNull)) && true = false
  /\ never_uploads (get_account_information (mock_env (fun _ => Ok VNull)) true).
Proof.
  assert (H : SAVE_CHART_ARTIFACT (mock_env (fun _ => Ok VNull)) && true = false)
    by reflexivity.
  split; [exact H|].
  exact (proj1 (proj2 (artifacts_only_when_enabled (mock_env (fun _ => Ok VNull)) true H))).
Defined.

(** ** The result of [get_historical_prices], further *)

(** X3: [get_historical_prices] returns a top-level error, or a dict with
    one key per distinct listed symbol; a symbol listed twice is fetched
    twice but keeps a single entry, and exactly one bar request is made
    per listed symbol, in order. *)
Theorem historical_one_key_per_symbol (env : Env) symbols start end_ interval tc h :
  exists v h', get_historical_prices env symbols start end_ interval tc h = (Ok v, h')
  /\ ((exists m, v = error_dict m)
      \/ exists results calls,
           v = VDict results /\ h' = h ++ calls
           /\ NoDup (map fst results)
           /\ (forall k, In k (map fst results) <-> In k (symbol_list_of symbols))
           /\ Forall2 (fun s c => option_map br_symbol_or_symbols (bars_request c) = Some s)
                      (symbol_list_of symbols) calls).
Proof.
  destruct (get_historical_prices_spec env symbols start end_ interval tc h)
    as (v & h' & Hv & [Herr | (results & calls & Hr & Hh & Hnd & Hk & _ & Fc)]).
  - exists v, h'. split; [exact Hv | left; exact Herr].
  - exists v, h'. split; [exact Hv|]. right. exists results, calls. auto.
Qed.

(** X4: every per-symbol entry of [get_historical_prices] is either the
    error dict or [{"status": "success", "symbol": s, "historical_data": l}]
    where [s] is its key and [l] is a non-empty list. *)
Theorem historical_entries_shape (env : Env) symbols start end_ interval tc h :
  exists v h', get_historical_prices env symbols start end_ interval tc h = (Ok v, h')
  /\ ((exists m, v = error_dict m)
      \/ exists results, v = VDict results
                         /\ Forall (fun kv => entry_ok (fst kv) (snd kv)) results).
Proof.
  destruct (get_historical_prices_spec env symbols start end_ interval tc h)
    as (v & h' & Hv & [Herr | (results & calls & Hr & _ & _ & _ & He & _)]).
  - exists v, h'. split; [exact Hv | left; exact Herr].
  - exists v, h'. split; [exact Hv|]. right. exists results. auto.
Qed.

(** X5: a start or end date that [fromisoformat] rejects makes
    [get_historical_prices] return the parse error, before any request. *)
Theorem historical_bad_dates (env : Env) symbols start end_ interval tc h :
  (forall e, fromisoformat env start = Exc e ->
     get_historical_prices env symbols start end_ interval tc h = (Ok (error_dict e), h))
  /\ (forall s e, fromisoformat env start = Ok s -> fromisoformat env end_ = Exc e ->
     get_historical_prices env symbols start end_ interval tc h = (Ok (error_dict e), h)).
Proof.
  split.
  - intros e He. unfold get_historical_prices, guard, bind at 1, lift at 1.
    rewrite He. reflexivity.
  - intros s e Hs He. unfold get_historical_prices, guard, bind at 1 2, lift at 1 2.
    rewrite Hs, He. reflexivity.
Qed.

(** A backend whose date parser rejects the word ["yesterday"]. *)
Definition mock_dates : Env :=
  {| vendor := fun _ _ => Ok VNull;
     SAVE_CHART_ARTIFACT := false;
     today_00_00 := "2025-06-30T00:00:00+00:00";
     today_23_59 := "2025-06-30T23:59:59.999999+00:00";
     yesterday := "2025-06-29";
     yesterday_start := "2025-06-29T00:00:00";
     yesterday_end := "2025-06-29T23:59:59";
     fromisoformat := fun s => if String.eqb s "yesterday"
                               then Exc "Invalid isoformat string: 'yesterday'"
                               else Ok s;
     to_utc_iso := fun v => Ok v |}.

Lemma historical_bad_dates_witness :
  fromisoformat mock_dates "yesterday" = Exc "Invalid isoformat string: 'yesterday'"
  /\ get_historical_prices mock_dates "AAPL" "yesterday" "2025-06-30" "day" false []
     = (Ok (error_dict "Invalid isoformat string: 'yesterday'"), []).
Proof.
  assert (H : fromisoformat mock_dates "yesterday" = Exc "Invalid isoformat string: 'yesterday'")
    by reflexivity.
  split; [exact H|].
  exact (proj1 (historical_bad_dates mock_dates "AAPL" "yesterday" "2025-06-30" "day" false [])
           _ H).
Defined.

(** ** [get_yesterdays_price_action] and [plot_price_action] on top of
    [get_historical_prices] *)

Lemma Forall_assoc (E : string -> value -> Prop) kvs k v :
  Forall (fun kv => E (fst kv) (snd kv)) kvs -> assoc k kvs = Some v -> E k v.
Proof.
  induction 1 as [|[k' v'] r Hkv Hr IH]; simpl; [discriminate|].
  destruct (String.eqb k k') eqn:E'; [|exact IH].
  apply String.eqb_eq in E'. subst k'. intros H. injection H as <-. exact Hkv.
Qed.

Lemma assoc_In {A} k (kvs : list (string * A)) v :
  assoc k kvs = Some v -> In k (map fst kvs).
Proof.
  induction kvs as [|[k' v'] r IH]; simpl; [discriminate|].
  destruct (String.eqb k k') eqn:E'; [|intros H; right; apply IH, H].
  apply String.eqb_eq in E'. intros _. left. symmetry. exact E'.
Qed.

(** A successful entry found under [symbol] in the result of
    [get_historical_prices] carries a non-empty record list. *)
Lemma historical_success_entry env symbols start end_ interval tc h results h' symbol e :
  get_historical_prices env symbols start end_ interval tc h = (Ok (VDict results), h') ->
  assoc symbol results = Some e -> getitem e "status" = Ok (VStr "success") ->
  exists r rs, e = success_dict [("symbol", VStr symbol);
                                 ("historical_data", VList (r :: rs))].
Proof.
  intros H Ha Hs.
  destruct (get_historical_prices_spec env symbols start end_ interval tc h)
    as (v & h2 & Hv & [(m & ->) | (rs & calls & -> & _ & _ & _ & He & _)]);
    rewrite H in Hv; injection Hv as Hv _.
  - unfold error_dict in Hv. try (injection Hv as Hv). subst results. simpl in Ha.
    destruct (String.eqb symbol "status"); [injection Ha as <-; discriminate|].
    destruct (String.eqb symbol "message"); [injection Ha as <-; discriminate|].
    discriminate.
  - try (injection Hv as Hv). subst rs.
    destruct (Forall_assoc entry_ok results symbol e He Ha) as [(m & ->) | Hok];
      [discriminate | exact Hok].
Qed.

Lemma entry_succeeded_true symbol v h h2 :
  entry_succeeded symbol v h = (Ok true, h2) ->
  exists kvs e, v = VDict kvs /\ assoc symbol kvs = Some e
                /\ getitem e "status" = Ok (VStr "success").
Proof.
  unfold entry_succeeded, bind, lift.
  destruct (contains symbol v) as [b|x] eqn:Hc; [|discriminate].
  destruct b; [|discriminate].
  destruct (getitem v symbol) as [e|x] eqn:Hg; [|discriminate].
  destruct (getitem e "status") as [st|x] eqn:Hs; [|discriminate].
  unfold ret. intros H. injection H as Hb _.
  destruct st as [| | |s| | |]; try discriminate. apply String.eqb_eq in Hb. subst s.
  destruct v as [| | | | |kvs|]; try discriminate. simpl in Hg.
  destruct (assoc symbol kvs) eqn:Ha; [|discriminate]. injection Hg as ->.
  exists kvs, e. auto.
Qed.

Lemma entry_succeeded_found symbol results e h :
  assoc symbol results = Some e -> getitem e "status" = Ok (VStr "success") ->
  entry_succeeded symbol (VDict results) h = (Ok true, h).
Proof.
  intros Ha Hs. unfold entry_succeeded, bind, lift, contains, getitem at 1.
  rewrite Ha. simpl. rewrite Hs. reflexivity.
Qed.

Lemma entry_succeeded_absent symbol results h :
  assoc symbol results = None -> entry_succeeded symbol (VDict results) h = (Ok false, h).
Proof. intros Ha. unfold entry_succeeded, bind, lift, contains. rewrite Ha. reflexivity. Qed.

(** X6: when the day bars of yesterday give a successful entry for
    [symbol], [get_yesterdays_price_action] returns its non-empty record
    list; when the symbol has no entry it returns the "No price action
    found" error.  Either way it makes exactly the requests of
    [get_historical_prices]. *)
Theorem yesterday_from_history (env : Env) symbol h results h' :
  get_historical_prices env symbol (yesterday_start env) (yesterday_end env) "day" false h
    = (Ok (VDict results), h') ->
  (forall e, assoc symbol results = Some e -> getitem e "status" = Ok (VStr "success") ->
     exists r rs, getitem e "historical_data" = Ok (VList (r :: rs))
       /\ get_yesterdays_price_action env symbol h
          = (Ok (success_dict [("symbol", VStr symbol);
                               ("yesterdays_price_action", VList (r :: rs))]), h'))
  /\ (assoc symbol results = None ->
      get_yesterdays_price_action env symbol h
      = (Ok (error_dict ("No price action found for " ++ symbol ++ " on "
                         ++ yesterday env ++ ".")), h')).
Proof.
  intros H. split.
  - intros e Ha Hs.
    destruct (historical_success_entry _ _ _ _ _ _ _ _ _ _ e H Ha Hs) as (r & rs & He).
    exists r, rs. split; [subst e; reflexivity|].
    unfold get_yesterdays_price_action, guard.
    rewrite (bind_step _ _ _ _ _ H). cbv beta.
    rewrite (bind_step _ _ _ _ _ (entry_succeeded_found symbol results e h' Ha Hs)).
    cbv beta. unfold bind, lift, getitem at 1. rewrite Ha. subst e. reflexivity.
  - intros Ha. unfold get_yesterdays_price_action, guard.
    rewrite (bind_step _ _ _ _ _ H). cbv beta.
    rewrite (bind_step _ _ _ _ _ (entry_succeeded_absent symbol results h' Ha)).
    reflexivity.
Qed.

Definition mock_yesterday : Env :=
  mock_env (fun _ => Ok (VDict [("AAPL", VList [full_bar])])).

Lemma yesterday_from_history_witness :
  exists r rs,
    get_yesterdays_price_action mock_yesterday "AAPL" []
    = (Ok (success_dict [("symbol", VStr "AAPL");
                         ("yesterdays_price_action", VList (r :: rs))]),
       [CallGetStockBars {| br_symbol_or_symbols := "AAPL";
                            br_start := Some "2025-06-29T00:00:00";
                            br_end := Some "2025-06-29T23:59:59";
                            br_timeframe := Day; br_limit := 10000;
                            br_feed := Some IEX |}]).
Proof.
  edestruct (proj1 (yesterday_from_history mock_yesterday "AAPL" [] _ _ eq_refl)
               _ eq_refl eq_refl) as (r & rs & _ & Hy).
  exists r, rs. exact Hy.
Defined.

(** X7: when [get_historical_prices] gives a successful entry for
    [symbol], [plot_price_action] never takes its "No data to plot" branch:
    it answers that plotting is disabled when [SAVE_CHART_ARTIFACT] is off
    or no tool context is given, and otherwise uploads one chart and
    reports its file name [price_action_<symbol>_<start[:10]>_<end[:10]>.png].
    When the symbol has no entry it returns the "No historical data" error. *)
Theorem plot_from_history (env : Env) symbol start end_ interval tc h results h' :
  get_historical_prices env symbol start end_ interval tc h = (Ok (VDict results), h') ->
  (forall e, assoc symbol results = Some e -> getitem e "status" = Ok (VStr "success") ->
     (SAVE_CHART_ARTIFACT env && tc = false ->
        plot_price_action env symbol start end_ interval tc h
        = (Ok (success_dict [("message", VStr "Chart plotting is disabled or no tool context provided.")]), h'))
     /\ (SAVE_CHART_ARTIFACT env && tc = true ->
         forall a, vendor env h' (CallSaveArtifact "price_action") = Ok a ->
         plot_price_action env symbol start end_ interval tc h
         = (Ok (success_dict [("message", VStr ("Chart saved as "
                                ++ ("price_action_" ++ symbol ++ "_" ++ substring 0 10 start
                                    ++ "_" ++ substring 0 10 end_ ++ ".png") ++ "."))]),
            h' ++ [CallSaveArtifact "price_action"])))
  /\ (assoc symbol results = None ->
      plot_price_action env symbol start end_ interval tc h
      = (Ok (error_dict (no_history_message symbol)), h')).
Proof.
  intros H. split.
  - intros e Ha Hs.
    destruct (historical_success_entry _ _ _ _ _ _ _ _ _ _ e H Ha Hs) as (r & rs & He).
    unfold plot_price_action, guard.
    rewrite (bind_step _ _ _ _ _ H). cbv beta.
    rewrite (bind_step _ _ _ _ _ (entry_succeeded_found symbol results e h' Ha Hs)).
    cbv beta. subst e.
    split.
    + intros Hoff. rewrite Hoff. unfold getitem at 1. rewrite Ha. simpl. reflexivity.
    + intros Hon a Hsave. rewrite Hon. unfold getitem at 1. rewrite Ha. simpl.
      unfold bind, lift, ret, call. simpl. rewrite Hsave. reflexivity.
  - intros Ha. unfold plot_price_action, guard.
    rewrite (bind_step _ _ _ _ _ H). cbv beta.
    rewrite (bind_step _ _ _ _ _ (entry_succeeded_absent symbol results h' Ha)).
    reflexivity.
Qed.

Lemma plot_from_history_witness :
  plot_price_action mock_yesterday "AAPL" "2025-06-01" "2025-06-30" "day" true []
  = (Ok (success_dict [("message", VStr "Chart plotting is disabled or no tool context provided.")]),
     [CallGetStockBars {| br_symbol_or_symbols := "AAPL";
                          br_start := Some "2025-06-01"; br_end := Some "2025-06-30";
                          br_timeframe := Day; br_limit := 10000;
                          br_feed := Some IEX |}]).
Proof.
  exact (proj1 (proj1 (plot_from_history mock_yesterday "AAPL" "2025-06-01" "2025-06-30"
                         "day" true [] _ _ eq_refl) _ eq_refl eq_refl) eq_refl).
Defined.

(** X8: a symbol that is not one of the symbols its own string lists (it
    contains a comma, has surrounding blanks, or is blank) never succeeds in
    [get_yesterdays_price_action] or [plot_price_action]: the entry is
    stored under the cleaned symbols, so the lookup by the raw symbol fails
    and an error dict is returned. *)
Theorem unlisted_symbol_is_error (env : Env) symbol h :
  ~ In symbol (symbol_list_of symbol) ->
  (exists m h', get_yesterdays_price_action env symbol h = (Ok (error_dict m), h'))
  /\ (forall start end_ interval tc,
        exists m h', plot_price_action env symbol start end_ interval tc h
                     = (Ok (error_dict m), h')).
Proof.
  intros Hn.
  assert (Hno : forall symbols start end_ interval tc v h1,
            symbols = symbol ->
            get_historical_prices env symbols start end_ interval tc h = (Ok v, h1) ->
            fst (entry_succeeded symbol v h1) <> Ok true).
  { intros symbols start end_ interval tc v h1 -> Hv Ht.
    destruct (entry_succeeded symbol v h1) as [r h3] eqn:Ee. simpl in Ht. subst r.
    destruct (entry_succeeded_true _ _ _ _ Ee) as (kvs & e & -> & Ha & Hs).
    destruct (historical_success_entry _ _ _ _ _ _ _ _ _ _ e Hv Ha Hs) as (r & rs & He).
    destruct (get_historical_prices_spec env symbol start end_ interval tc h)
      as (v & h4 & Hv' & [(m & ->) | (results & calls & -> & _ & _ & Hk & _ & _)]);
      rewrite Hv in Hv'; injection Hv' as Hv' _.
    - subst e. unfold error_dict in Hv'. try (injection Hv' as Hv'). subst kvs.
      simpl in Ha. destruct (String.eqb symbol "status"); [discriminate|].
      destruct (String.eqb symbol "message"); discriminate.
    - try (injection Hv' as Hv'). subst kvs. apply Hn, Hk. exact (assoc_In _ _ _ Ha). }
  split.
  - destruct (get_historical_prices_spec env symbol (yesterday_start env) (yesterday_end env)
                "day" false h) as (v & h1 & Hv & _).
    unfold get_yesterdays_price_action, guard.
    rewrite (bind_step _ _ _ _ _ Hv). cbv beta. unfold bind at 1.
    pose proof (Hno _ _ _ _ _ v h1 eq_refl Hv) as Hne.
    destruct (entry_succeeded symbol v h1) as [[[|]|x] h2]; simpl in Hne.
    + contradiction.
    + eexists _, _. reflexivity.
    + eexists _, _. reflexivity.
  - intros start end_ interval tc.
    destruct (get_historical_prices_spec env symbol start end_ interval tc h)
      as (v & h1 & Hv & _).
    unfold plot_price_action, guard.
    rewrite (bind_step _ _ _ _ _ Hv). cbv beta. unfold bind at 1.
    pose proof (Hno _ _ _ _ _ v h1 eq_refl Hv) as Hne.
    destruct (entry_succeeded symbol v h1) as [[[|]|x] h2]; simpl in Hne.
    + contradiction.
    + eexists _, _. reflexivity.
    + eexists _, _. reflexivity.
Qed.

Lemma unlisted_symbol_is_error_witness :
  ~ In "AAPL,MSFT" (symbol_list_of "AAPL,MSFT")
  /\ exists m h', get_yesterdays_price_action mock_yesterday "AAPL,MSFT" []
                  = (Ok (error_dict m), h').
Proof.
  assert (Hn : ~ In "AAPL,MSFT" (symbol_list_of "AAPL,MSFT")).
  { assert (Hl : symbol_list_of "AAPL,MSFT" = ["AAPL"; "MSFT"]) by reflexivity.
    rewrite Hl. simpl. intros [H|[H|[]]]; discriminate. }
  split; [exact Hn|].
  exact (proj1 (unlisted_symbol_is_error mock_yesterday "AAPL,MSFT" [] Hn)).
Defined.

(** ** Records built from orders, positions and the account *)

(** [r] is the dict literal over [fields] read from [src]: its keys are
    the new names, in order, and each value is [src[old name]]. *)
Definition projected (fields : list (string * string)) (src r : value) : Prop :=
  exists fs, r = VDict fs
    /\ Forall2 (fun f kv => fst kv = fst f /\ getitem src (snd f) = Ok (snd kv)) fields fs.

Lemma post_projected fields src :
  post (projected fields src) (fs <- project fields src ;; ret (VDict fs)).
Proof.
  eapply post_bind; [apply post_project | intros fs Hfs].
  apply post_ret. exists fs. split; [reflexivity | exact Hfs].
Qed.

Lemma post_records fields key (l : list value) :
  post (fun v => forall recs, v = success_dict [(key, VList recs)] ->
                              Forall2 (projected fields) l recs)
       (items <- lift (py_iter (VList l)) ;;
        recs <- mapM (fun o => fs <- project fields o ;; ret (VDict fs)) items ;;
        ret (success_dict [(key, VList recs)])).
Proof.
  eapply post_bind; [apply post_lift | intros items Hi]. injection Hi as <-.
  eapply post_bind; [apply post_mapM_Forall2; intros o; apply post_projected|].
  intros recs Hr. apply post_ret. intros recs' H. injection H as <-. exact Hr.
Qed.

Lemma list_orders_records env status key h orders recs :
  answers env (list_orders env status key) h (VList orders) ->
  fst (list_orders env status key h) = Ok (success_dict [(key, VList recs)]) ->
  Forall2 (projected order_fields) orders recs.
Proof.
  intros HA H. unfold list_orders in *. answered HA.
  apply guard_success in H.
  rewrite (bind_step _ _ _ _ _ (call_ok _ _ _ _ HA)) in H.
  exact (post_apply _ _ _ _ (post_records order_fields key orders) H recs eq_refl).
Qed.

Lemma place_order_record env symbol quantity side tif h order fs :
  answers env (_place_market_order env symbol quantity side tif) h order ->
  fst (_place_market_order env symbol quantity side tif h)
    = Ok (success_dict [("order", VDict fs)]) ->
  projected order_fields order (VDict fs).
Proof.
  intros HA H. unfold _place_market_order in *.
  destruct (negb _).
  - simpl in H. inversion H.
  - answered HA. apply guard_success in H.
    rewrite (bind_step _ _ _ _ _ (call_ok _ _ _ _ HA)) in H.
    refine (post_apply (fun v => v = success_dict [("order", VDict fs)] ->
                                 projected order_fields order (VDict fs)) _ _ _ _ H eq_refl).
    eapply post_bind; [apply post_project | intros fs' Hfs].
    apply post_ret. intros E. injection E as <-. exists fs'. split; [reflexivity | exact Hfs].
Qed.

(** X9: each order record returned by the order listings and by order
    placement holds, in order, the keys [id], [symbol], [qty],
    [order_type], [side], [type], [time_in_force], [status],
    [position_intent], [asset_class] and [expired_at], each with the vendor
    order's value for the same key, except [expired_at], which holds the
    order's [expires_at]; the listings give one record per vendor order. *)
Theorem order_records (env : Env) :
  (forall h orders recs,
     answers env (get_all_orders env) h (VList orders) ->
     fst (get_all_orders env h) = Ok (success_dict [("orders", VList recs)]) ->
     Forall2 (projected order_fields) orders recs)
  /\ (forall h orders recs,
     answers env (get_open_orders env) h (VList orders) ->
     fst (get_open_orders env h) = Ok (success_dict [("open_orders", VList recs)]) ->
     Forall2 (projected order_fields) orders recs)
  /\ (forall h orders recs,
     answers env (get_closed_orders env) h (VList orders) ->
     fst (get_closed_orders env h) = Ok (success_dict [("cancelled_orders", VList recs)]) ->
     Forall2 (projected order_fields) orders recs)
  /\ (forall symbol quantity side h order fs,
     answers env (place_stock_market_order env symbol quantity side) h order ->
     fst (place_stock_market_order env symbol quantity side h)
       = Ok (success_dict [("order", VDict fs)]) ->
     projected order_fields order (VDict fs))
  /\ (forall symbol quantity side h order fs,
     answers env (place_crypto_market_order env symbol quantity side) h order ->
     fst (place_crypto_market_order env symbol quantity side h)
       = Ok (success_dict [("order", VDict fs)]) ->
     projected order_fields order (VDict fs)).
Proof.
  split; [|split; [|split; [|split]]]; intros.
  - eapply list_orders_records; eassumption.
  - eapply list_orders_records; eassumption.
  - eapply list_orders_records; eassumption.
  - eapply place_order_record; eassumption.
  - eapply place_order_record; eassumption.
Qed.

Definition sample_order : value :=
  VDict [("id", VStr "61e69015"); ("symbol", VStr "AAPL"); ("qty", VStr "1");
         ("order_type", VStr "market"); ("side", VStr "buy"); ("type", VStr "market");
         ("time_in_force", VStr "day"); ("status", VStr "accepted");
         ("position_intent", VStr "buy_to_open"); ("asset_class", VStr "us_equity");
         ("expires_at", VStr "2025-07-01T20:00:00Z")].

Definition mock_orders : Env := mock_env (fun _ => Ok (VList [sample_order])).

Lemma order_records_witness :
  exists recs, fst (get_all_orders mock_orders []) = Ok (success_dict [("orders", VList recs)])
               /\ Forall2 (projected order_fields) [sample_order] recs.
Proof.
  eexists. split; [reflexivity|].
  apply (proj1 (order_records mock_orders) []).
  - eexists _, []. split; reflexivity.
  - reflexivity.
Defined.

(** X10: each record of [get_all_open_positions] is built from one vendor
    position, renaming [qty] to [quantity], [avg_entry_price] to
    [average_entry_price] and the [unrealized_*] fields to the [total_*pnl*]
    names; the account record of [get_account_information] takes
    [buying_power_available] from [effective_buying_power] and every other
    key from the same key of the vendor account. *)
Theorem position_and_account_records (env : Env) tc :
  (forall h positions recs,
     answers env (get_all_open_positions env tc) h (VList positions) ->
     fst (get_all_open_positions env tc h)
       = Ok (success_dict [("open_positions", VList recs)]) ->
     Forall2 (projected position_fields) positions recs)
  /\ (forall h account fs,
     answers env (get_account_information env tc) h account ->
     fst (get_account_information env tc h) = Ok (success_dict [("account", VDict fs)]) ->
     projected account_fields account (VDict fs)).
Proof.
  split.
  - intros h positions recs HA H. unfold get_all_open_positions in *. answered HA.
    apply guard_success in H.
    rewrite (bind_step _ _ _ _ _ (call_ok _ _ _ _ HA)) in H.
    refine (post_apply (fun v => forall recs, v = success_dict [("open_positions", VList recs)] ->
                                  Forall2 (projected position_fields) positions recs)
              _ _ _ _ H recs eq_refl).
    eapply post_bind; [apply post_true | intros _u _].
    eapply post_bind; [apply post_true | intros _u' _].
    apply post_records.
  - intros h account fs HA H. unfold get_account_information in *. answered HA.
    apply guard_success in H.
    rewrite (bind_step _ _ _ _ _ (call_ok _ _ _ _ HA)) in H.
    refine (post_apply (fun v => v = success_dict [("account", VDict fs)] ->
                                 projected account_fields account (VDict fs))
              _ _ _ _ H eq_refl).
    eapply post_bind; [apply post_true | intros _u _].
    eapply post_bind; [apply post_project | intros fs' Hfs].
    apply post_ret. intros E. injection E as <-. exists fs'. split; [reflexivity | exact Hfs].
Qed.

Definition sample_account : value :=
  VDict [("account_number", VStr "PA3NV9Q7CWET"); ("status", VStr "ACTIVE");
         ("currency", VStr "USD"); ("buying_power", VStr "199178.71");
         ("cash", VStr "99491.65"); ("equity", VStr "99936.41");
         ("long_market_value", VStr "444.76"); ("short_market_value", VStr "0");
         ("portfolio_value", VStr "99936.41");
         ("effective_buying_power", VStr "199178.71");
         ("non_marginable_buying_power", VStr "99327.41");
         ("options_buying_power", VStr "99327.41"); ("last_equity", VStr "99954.515")].

Definition mock_account : Env := mock_env (fun _ => Ok sample_account).

Lemma position_and_account_records_witness :
  exists fs, fst (get_account_information mock_account true [])
               = Ok (success_dict [("account", VDict fs)])
             /\ projected account_fields sample_account (VDict fs).
Proof.
  eexists. split; [reflexivity|].
  apply (proj2 (position_and_account_records mock_account true) []).
  - eexists _, []. split; reflexivity.
  - reflexivity.
Defined.

(** ** One malformed item fails the whole listing *)

Lemma bind_raises {A B} (m : M A) (k : A -> M B) h e h' :
  m h = (Exc e, h') -> bind m k h = (Exc e, h').
Proof. intros E. unfold bind. rewrite E. reflexivity. Qed.

Definition raises {A} (m : M A) : Prop := forall h, exists e h', m h = (Exc e, h').

Lemma mapM_raises {A B} (f : A -> M B) l x :
  In x l -> raises (f x) -> raises (mapM f l).
Proof.
  intros Hx Hf. induction l as [|y l IH]; [contradiction|]. intros h. simpl.
  destruct Hx as [<-|Hx].
  - destruct (Hf h) as (e & h' & E). exists e, h'. apply bind_raises, E.
  - unfold bind at 1. destruct (f y h) as [[b|e] h1].
    + destruct (IH Hx h1) as (e & h' & E). exists e, h'. apply bind_raises, E.
    + exists e, h1. reflexivity.
Qed.

Lemma project_raises fields src f e :
  In f fields -> getitem src (snd f) = Exc e -> raises (project fields src).
Proof.
  intros Hf He. apply (mapM_raises _ _ f Hf). intros h0. exists e, h0.
  apply bind_raises. unfold lift. rewrite He. reflexivity.
Qed.

Lemma record_raises fields src f e :
  In f fields -> getitem src (snd f) = Exc e ->
  raises (fs <- project fields src ;; ret (VDict fs)).
Proof.
  intros Hf He h.
  destruct (project_raises fields src f e Hf He h) as (e' & h' & E).
  exists e', h'. apply bind_raises, E.
Qed.

Lemma guard_raises body h e h' : body h = (Exc e, h') -> guard body h = (Ok (error_dict e), h').
Proof. intros E. unfold guard. rewrite E. reflexivity. Qed.

Lemma records_raise fields key (l : list value) o f e :
  In o l -> In f fields -> getitem o (snd f) = Exc e ->
  raises (items <- lift (py_iter (VList l)) ;;
          recs <- mapM (fun o => fs <- project fields o ;; ret (VDict fs)) items ;;
          ret (success_dict [(key, VList recs)])).
Proof.
  intros Ho Hf He h.
  destruct (mapM_raises (fun o0 => fs <- project fields o0 ;; ret (VDict fs)) l o Ho
              (record_raises fields o f e Hf He) h) as (e' & h' & E).
  exists e', h'. rewrite (bind_step _ _ h l h eq_refl). apply bind_raises, E.
Qed.

Lemma list_orders_malformed env status key h orders o f e :
  answers env (list_orders env status key) h (VList orders) ->
  In o orders -> In f order_fields -> getitem o (snd f) = Exc e ->
  exists m, fst (list_orders env status key h) = Ok (error_dict m).
Proof.
  intros HA Ho Hf He. unfold list_orders in *. answered HA.
  destruct (records_raise order_fields key orders o f e Ho Hf He (h ++ [CallGetOrders status]))
    as (e' & h' & E).
  exists e'. erewrite guard_raises; [reflexivity|].
  rewrite (bind_step _ _ _ _ _ (call_ok _ _ _ _ HA)). exact E.
Qed.

(** X11: if one order or position of the vendor's list lacks a field the
    tool reads (or is not a dict), the listing returns an error dict rather
    than a partial list; likewise an account lacking a read field. *)
Theorem malformed_item_fails_listing (env : Env) :
  (forall h orders o f e,
     answers env (get_all_orders env) h (VList orders) ->
     In o orders -> In f order_fields -> getitem o (snd f) = Exc e ->
     exists m, fst (get_all_orders env h) = Ok (error_dict m))
  /\ (forall h orders o f e,
     answers env (get_open_orders env) h (VList orders) ->
     In o orders -> In f order_fields -> getitem o (snd f) = Exc e ->
     exists m, fst (get_open_orders env h) = Ok (error_dict m))
  /\ (forall h orders o f e,
     answers env (get_closed_orders env) h (VList orders) ->
     In o orders -> In f order_fields -> getitem o (snd f) = Exc e ->
     exists m, fst (get_closed_orders env h) = Ok (error_dict m))
  /\ (forall tc h positions p f e,
     answers env (get_all_open_positions env tc) h (VList positions) ->
     In p positions -> In f position_fields -> getitem p (snd f) = Exc e ->
     exists m, fst (get_all_open_positions env tc h) = Ok (error_dict m))
  /\ (forall tc h account f e,
     answers env (get_account_information env tc) h account ->
     In f account_fields -> getitem account (snd f) = Exc e ->
     exists m, fst (get_account_information env tc h) = Ok (error_dict m)).
Proof.
  split; [|split; [|split; [|split]]]; intros.
  - eapply list_orders_malformed; eassumption.
  - eapply list_orders_malformed; eassumption.
  - eapply list_orders_malformed; eassumption.
  - rename H into HA. unfold get_all_open_positions in *. answered HA.
    unfold guard. rewrite (bind_step _ _ _ _ _ (call_ok _ _ _ _ HA)). unfold bind at 1.
    destruct (save_chart env tc "open_positions_distribution" (h ++ [CallGetAllPositions]))
      as [[u|x] h1]; [|eexists; reflexivity].
    cbv beta. unfold bind at 1.
    destruct (save_chart env tc "open_positions_pnl" h1)
      as [[u'|x] h2]; [|eexists; reflexivity].
    destruct (records_raise position_fields "open_positions" positions p f e H0 H1 H2 h2)
      as (e' & h' & E).
    exists e'. cbv beta. rewrite E. reflexivity.
  - rename H into HA. unfold get_account_information in *. answered HA.
    unfold guard. rewrite (bind_step _ _ _ _ _ (call_ok _ _ _ _ HA)). unfold bind at 1.
    destruct (save_chart env tc "account_asset_allocation" (h ++ [CallGetAccount]))
      as [[u|x] h1]; [|eexists; reflexivity].
    destruct (project_raises account_fields account f e H0 H1 h1) as (e' & h' & E).
    exists e'. cbv beta. rewrite (bind_raises _ _ _ _ _ E). reflexivity.
Qed.

Lemma malformed_item_fails_listing_witness :
  exists m, fst (get_all_orders (mock_env (fun _ => Ok (VList [VDict [("id", VStr "1")]]))) [])
            = Ok (error_dict m).
Proof.
  apply (proj1 (malformed_item_fails_listing
                  (mock_env (fun _ => Ok (VList [VDict [("id", VStr "1")]]))))
           [] [VDict [("id", VStr "1")]] (VDict [("id", VStr "1")]) ("symbol", "symbol")
           "'symbol'").
  - eexists _, []. split; reflexivity.
  - left; reflexivity.
  - simpl. right; left; reflexivity.
  - reflexivity.
Defined.

(** ** News summaries and crypto symbols *)

(** [article.get(k, "")] on an article dict. *)
Definition field_or_empty (kvs : list (string * value)) (k : string) : value :=
  match assoc k kvs with Some v => v | None => VStr "" end.

Definition news_summary (kvs : list (string * value)) : value :=
  VDict [("headline", field_or_empty kvs "headline");
         ("summary", field_or_empty kvs "summary");
         ("source", field_or_empty kvs "source");
         ("created_at", field_or_empty kvs "created_at")].

Lemma lift_ok {A} (r : result A) a h : r = Ok a -> lift r h = (Ok a, h).
Proof. intros ->. reflexivity. Qed.

Lemma news_mapM arts h :
  mapM (fun article =>
          headline <- lift (dict_get article "headline" (VStr "")) ;;
          summary <- lift (dict_get article "summary" (VStr "")) ;;
          source <- lift (dict_get article "source" (VStr "")) ;;
          created_at <- lift (dict_get article "created_at" (VStr "")) ;;
          ret (VDict [("headline", headline); ("summary", summary);
                      ("source", source); ("created_at", created_at)]))
       (map VDict arts) h
  = (Ok (map news_summary arts), h).
Proof.
  induction arts as [|a arts IH]; [reflexivity|].
  cbn [mapM map].
  match goal with |- bind ?m ?k h = _ =>
    assert (E : m h = (Ok (news_summary a), h)) by reflexivity;
    rewrite (bind_step m k h _ _ E)
  end.
  cbv beta. rewrite (bind_step _ _ _ _ _ IH). reflexivity.
Qed.

(** X12: [fetch_today_news_for_symbol] turns a non-empty list of article
    dicts into one summary per article, in order, with the article's
    [headline], [summary], [source] and [created_at], each [""] when the
    article lacks it; an empty list gives the "no news" error, and a
    response without a ["news"] key the error ['news']. *)
Theorem news_summaries (env : Env) symbol h kvs :
  answers env (fetch_today_news_for_symbol env symbol) h (VDict kvs) ->
  (forall arts, assoc "news" kvs = Some (VList (map VDict arts)) -> arts <> [] ->
     fst (fetch_today_news_for_symbol env symbol h)
     = Ok (success_dict [("news", VList (map news_summary arts))]))
  /\ (assoc "news" kvs = Some (VList []) ->
      fst (fetch_today_news_for_symbol env symbol h) = Ok (error_dict (no_news_message symbol)))
  /\ (assoc "news" kvs = None ->
      fst (fetch_today_news_for_symbol env symbol h) = Ok (error_dict "'news'")).
Proof.
  intros HA. unfold fetch_today_news_for_symbol in *. answered HA.
  unfold guard. rewrite (bind_step _ _ _ _ _ (call_ok _ _ _ _ HA)). cbv beta.
  split; [|split].
  - intros arts Hn Hne.
    assert (Hg : getitem (VDict kvs) "news" = Ok (VList (map VDict arts)))
      by (simpl; rewrite Hn; reflexivity).
    rewrite (bind_step _ _ _ _ _ (lift_ok _ _ _ Hg)). cbv beta.
    destruct arts as [|a arts]; [contradiction|].
    change (negb (truthy (VList (map VDict (a :: arts))))) with false. cbv iota.
    rewrite (bind_step _ _ _ _ _ (lift_ok _ (map VDict (a :: arts)) (h ++ _) eq_refl)).
    cbv beta.
    rewrite (bind_step _ _ _ _ _ (news_mapM (a :: arts) _)). reflexivity.
  - intros Hn. unfold bind at 1, lift at 1. simpl getitem. rewrite Hn. reflexivity.
  - intros Hn. unfold bind at 1, lift at 1. simpl getitem. rewrite Hn. reflexivity.
Qed.

Definition sample_article : list (string * value) :=
  [("headline", VStr "Apple unveils new chip"); ("summary", VStr "A short summary");
   ("created_at", VStr "2025-06-30T12:00:00Z")].

Definition mock_news : Env :=
  mock_env (fun _ => Ok (VDict [("news", VList [VDict sample_article])])).

Lemma news_summaries_witness :
  fst (fetch_today_news_for_symbol mock_news "AAPL" [])
  = Ok (success_dict [("news", VList [VDict [("headline", VStr "Apple unveils new chip");
                                             ("summary", VStr "A short summary");
                                             ("source", VStr "");
                                             ("created_at", VStr "2025-06-30T12:00:00Z")]])]).
Proof.
  apply (proj1 (news_summaries mock_news "AAPL" [] [("news", VList [VDict sample_article])]
                  ltac:(eexists _, []; split; reflexivity))
           [sample_article] eq_refl).
  discriminate.
Defined.

(** The symbols picked from one asset dict. *)
Definition symbol_of_asset (kvs : list (string * value)) : list value :=
  match assoc "symbol" kvs with Some v => [v] | None => [] end.

Lemma crypto_mapM assets h :
  mapM (fun asset =>
          b <- lift (contains "symbol" asset) ;;
          if b then x <- lift (getitem asset "symbol") ;; ret [x] else ret [])
       (map VDict assets) h
  = (Ok (map symbol_of_asset assets), h).
Proof.
  induction assets as [|a assets IH]; [reflexivity|].
  cbn [mapM map].
  match goal with |- bind ?m ?k h = _ =>
    assert (E : m h = (Ok (symbol_of_asset a), h))
      by (unfold bind, lift, contains, getitem, ret, symbol_of_asset;
          destruct (assoc "symbol" a); reflexivity);
    rewrite (bind_step m k h _ _ E)
  end.
  cbv beta. rewrite (bind_step _ _ _ _ _ IH). reflexivity.
Qed.

(** X13: [get_supported_crypto_symbols] lists, in the vendor's order, the
    ["symbol"] of every asset dict that has one, and skips the assets
    without one instead of failing. *)
Theorem crypto_symbols (env : Env) h assets :
  answers env (get_supported_crypto_symbols env) h (VList (map VDict assets)) ->
  fst (get_supported_crypto_symbols env h)
  = Ok (success_dict [("available_crypto_symbols",
                       VList (flat_map symbol_of_asset assets))]).
Proof.
  intros HA. unfold get_supported_crypto_symbols in *. answered HA.
  unfold guard. rewrite (bind_step _ _ _ _ _ (call_ok _ _ _ _ HA)). cbv beta.
  rewrite (bind_step _ _ _ _ _ (lift_ok _ (map VDict assets) (h ++ _) eq_refl)). cbv beta.
  rewrite (bind_step _ _ _ _ _ (crypto_mapM assets _)).
  rewrite flat_map_concat_map. reflexivity.
Qed.

Definition mock_assets : Env :=
  mock_env (fun _ => Ok (VList [VDict [("symbol", VStr "BTC/USD"); ("status", VStr "active")];
                                VDict [("status", VStr "inactive")];
                                VDict [("symbol", VStr "ETH/USD")]])).

Lemma crypto_symbols_witness :
  fst (get_supported_crypto_symbols mock_assets [])
  = Ok (success_dict [("available_crypto_symbols", VList [VStr "BTC/USD"; VStr "ETH/USD"])]).
Proof.
  exact (crypto_symbols mock_assets []
           [[("symbol", VStr "BTC/USD"); ("status", VStr "active")];
            [("status", VStr "inactive")]; [("symbol", VStr "ETH/USD")]]
           ltac:(eexists _, []; split; reflexivity)).
Defined.

Lemma drop_space_idem l : drop_space (drop_space l) = drop_space l.
Proof.
  induction l as [|c r IH]; [reflexivity|].
  simpl. destruct (is_space c) eqn:E; [exact IH|]. simpl. rewrite E. reflexivity.
Qed.

Lemma drop_space_suffix l : exists p, l = p ++ drop_space l.
Proof.
  induction l as [|c r IH]; [exists []; reflexivity|].
  simpl. destruct (is_space c).
  - destruct IH as [p Hp]. exists (c :: p). simpl. rewrite <- Hp. reflexivity.
  - exists []. reflexivity.
Qed.

Lemma drop_space_In c l : In c (drop_space l) -> In c l.
Proof.
  destruct (drop_space_suffix l) as [p Hp]. intros H.
  rewrite Hp. apply in_or_app. right. exact H.
Qed.

Lemma drop_space_rev_suffix x :
  drop_space (rev x) = rev x -> drop_space (rev (drop_space x)) = rev (drop_space x).
Proof.
  destruct (drop_space_suffix x) as [p Hp]. intros H.
  destruct (rev (drop_space x)) as [|c r] eqn:Er; [reflexivity|].
  rewrite Hp, rev_app_distr, Er in H. simpl in H |- *.
  destruct (is_space c); [|reflexivity].
  exfalso. simpl in H.
  assert (Hl : (length (drop_space ((r ++ rev p))) <= length (r ++ rev p))%nat).
  { destruct (drop_space_suffix (r ++ rev p)) as [q Hq].
    rewrite Hq at 2. rewrite length_app. lia. }
  rewrite H in Hl. simpl in Hl. lia.
Qed.

Lemma py_strip_idem s : py_strip (py_strip s) = py_strip s.
Proof.
  unfold py_strip. rewrite list_ascii_of_string_of_list_ascii.
  set (x := rev (drop_space (list_ascii_of_string s))).
  assert (Hx : drop_space (rev x) = rev x).
  { unfold x. rewrite rev_involutive. apply drop_space_idem. }
  rewrite (drop_space_rev_suffix x Hx), rev_involutive, drop_space_idem.
  reflexivity.
Qed.

Lemma split_aux_pieces sep l cur x :
  ~ In sep cur -> In x (split_aux sep l cur) ->
  exists w, x = string_of_list_ascii w /\ ~ In sep w.
Proof.
  revert cur. induction l as [|c r IH]; intros cur Hc Hx; simpl in Hx.
  - destruct Hx as [Hx|[]]. exists (rev cur). split; [auto|].
    rewrite <- in_rev. exact Hc.
  - destruct (Ascii.eqb c sep) eqn:E.
    + destruct Hx as [Hx|Hx].
      * exists (rev cur). split; [auto|]. rewrite <- in_rev. exact Hc.
      * apply (IH []); [intros []|exact Hx].
    + apply (IH (c :: cur)); [|exact Hx].
      intros [H|H]; [|contradiction].
      subst c. rewrite Ascii.eqb_refl in E. discriminate.
Qed.

(** X14: every symbol that [get_historical_prices] takes from its
    comma-separated argument is non-empty, holds no comma, and is already
    stripped: stripping it again gives the same string. *)
Theorem symbol_list_clean symbols s :
  In s (symbol_list_of symbols) ->
  s <> "" /\ ~ In ","%char (list_ascii_of_string s) /\ py_strip s = s.
Proof.
  unfold symbol_list_of. intros H. apply filter_In in H as [Hm Hne].
  apply in_map_iff in Hm as [x [Hx Hin]].
  apply split_aux_pieces in Hin as [w [Hw Hnc]]; [|intros []].
  split; [|split].
  - intros E. rewrite E in Hne. discriminate Hne.
  - subst s x. unfold py_strip. rewrite !list_ascii_of_string_of_list_ascii.
    intros Hc. apply in_rev, drop_space_In, in_rev, drop_space_In in Hc.
    contradiction.
  - subst s. apply py_strip_idem.
Qed.

Lemma symbol_list_clean_witness :
  In "MSFT" (symbol_list_of " AAPL , MSFT ,,")
  /\ ("MSFT" <> "" /\ ~ In ","%char (list_ascii_of_string "MSFT") /\ py_strip "MSFT" = "MSFT").
Proof.
  assert (Hin : In "MSFT" (symbol_list_of " AAPL , MSFT ,,")).
  { vm_compute. right. left. reflexivity. }
  split; [exact Hin|].
  exact (symbol_list_clean " AAPL , MSFT ,," "MSFT" Hin).
Defined.
